(** * CustomEventSystem: event bus, processing stages, haze removal, detection, CLI

    A shallow embedding of the C++ sources

      - [src/common/event_dispatcher.{h,cpp}]  (module [Dispatcher])
      - [src/common/iprocessor.{h,cpp}]        (module [Processor])
      - [src/defog/defogger.{h,cpp}]           (modules [Processor], [Defog])
      - [src/detection/inference_engine.cpp]   (modules [Processor], [Detect])
      - [src/commandline/commandline_args.cpp] and [main.cpp] (module [Cli])

    Threads are modelled by small-step machines: every thread has a program
    counter naming the source line it is about to execute, a step function
    executes that line, and the operations other threads call ([postEvent],
    [stop], ...) are state transformers that a scheduler interleaves with
    the steps.  A condition variable is one boolean: whether its single
    waiting thread is asleep inside [wait]. *)

From stdpp Require Import base option list gmap strings.
From Stdlib Require Import ZArith Lia Permutation Ascii.
From Stdlib Require Import Floats.SpecFloat.

Open Scope Z_scope.

(* ===================================================================== *)
(** * Part I: the program                                                 *)
(* ===================================================================== *)

(** ** [class Event] (event_dispatcher.h) *)

(** [enum class Event::Type]. *)
Inductive EventType : Type :=
  | InitialState
  | FrameCaptureReady
  | FrameDefoggerReady
  | FrameDetectionReady.

#[global] Instance EventType_eq_dec : EqDecision EventType.
Proof. solve_decision. Defined.

Definition EventType_to_nat (t : EventType) : nat :=
  match t with
  | InitialState => 0
  | FrameCaptureReady => 1
  | FrameDefoggerReady => 2
  | FrameDetectionReady => 3
  end%nat.

Definition EventType_of_nat (n : nat) : EventType :=
  match n with
  | 0 => InitialState
  | 1 => FrameCaptureReady
  | 2 => FrameDefoggerReady
  | _ => FrameDetectionReady
  end%nat.

#[global] Instance EventType_countable : Countable EventType.
Proof.
  refine (inj_countable' EventType_to_nat EventType_of_nat _).
  intros t. destruct t; reflexivity.
Defined.

(** [Event]: a type tag and the pair (original frame, processed frame).
    The frame type [Mat] stands for [cv::Mat]; the bus never looks inside. *)
Record Event (Mat : Type) : Type := mkEvent {
  type : EventType;
  data : Mat * Mat
}.
Arguments mkEvent {Mat} _ _.
Arguments type {Mat} _.
Arguments data {Mat} _.

(** ** [class EventDispatcher] (event_dispatcher.cpp) *)

Module Dispatcher.
Section WithWorld.
(** [Mat] is the frame type.  [W] is the part of the program a handler may
    touch: a handler is a [std::function<void(const Event&)>], run on the
    bus thread, whose effect lands outside the dispatcher. *)
Context {Mat W : Type}.

Definition Handler : Type := Event Mat -> W -> W.

(** The fields of the class.  [queueMutex] has no field of its own: every
    step below is one critical section.  [loopAsleep] is the state of
    [queueCondition]: [true] while the event loop sleeps inside [wait]. *)
Record EventDispatcher : Type := mkDispatcher {
  running : bool;
  eventQueue : list (Event Mat);
  loopAsleep : bool;
  handlerContainer : gmap EventType Handler
}.

(** [EventDispatcher::EventDispatcher() : running(true)]. *)
Definition new_dispatcher : EventDispatcher :=
  mkDispatcher true [] false ∅.

(** [queueCondition.notify_one()] / [notify_all()]: the sleeper, if any,
    becomes runnable and will re-evaluate the wait predicate. *)
Definition notify (d : EventDispatcher) : EventDispatcher :=
  mkDispatcher (running d) (eventQueue d) false (handlerContainer d).

(** The body of [~EventDispatcher()]: [running = false;
    queueCondition.notify_all()].  The members are destroyed when the body
    ends; what a thread still inside [startEventloop] does with them after
    that is outside this model. *)
Definition destroy (d : EventDispatcher) : EventDispatcher :=
  notify (mkDispatcher false (eventQueue d) (loopAsleep d) (handlerContainer d)).

(** [postEvent]: [eventQueue.push(event)] under the lock, then
    [queueCondition.notify_one()]. *)
Definition postEvent (e : Event Mat) (d : EventDispatcher) : EventDispatcher :=
  notify (mkDispatcher (running d) (eventQueue d ++ [e]) (loopAsleep d)
                       (handlerContainer d)).

(** [registerHandler]: [handlerContainer[type] = handler]. *)
Definition registerHandler (t : EventType) (h : Handler)
    (d : EventDispatcher) : EventDispatcher :=
  mkDispatcher (running d) (eventQueue d) (loopAsleep d)
               (<[t := h]> (handlerContainer d)).

(** [shutdownEventloop]: [handlerContainer.clear(); running.store(false);]
    and nothing else. *)
Definition shutdownEventloop (d : EventDispatcher) : EventDispatcher :=
  mkDispatcher false (eventQueue d) (loopAsleep d) ∅.

(** [handlerContainer.find(type)]. *)
Definition find_handler (hs : gmap EventType Handler) (t : EventType)
    : option Handler :=
  hs !! t.

(** What the bus thread does that can be seen from outside: a handler
    call, or the line written to [std::cerr]. *)
Inductive Obs : Type :=
  | Invoked (t : EventType) (e : Event Mat)
  | Cerr (msg : string).

Definition no_handler_msg : string :=
  "No handler registered for this event type!".

(** Program counter of the thread inside [startEventloop]. *)
Inductive LoopPc : Type :=
  | AtWhile                       (* line 26: while (running.load())      *)
  | AtWait                        (* line 28: queueCondition.wait(..)     *)
  | AtRunningCheck                (* line 30: if (!running) break         *)
  | AtDrain                       (* line 32: while (!eventQueue.empty()) *)
  | AtDispatch (e : Event Mat)    (* lines 35-42: unlock, find, call      *)
  | Returned.                     (* startEventloop has returned          *)

Record Bus : Type := mkBus {
  disp : EventDispatcher;
  pc : LoopPc;
  world : W;
  out : list Obs
}.

(** [eventQueue.empty()]. *)
Definition queue_empty (d : EventDispatcher) : bool :=
  match eventQueue d with [] => true | _ => false end.

(** The wait predicate of line 28: [!eventQueue.empty() || !running]. *)
Definition wait_pred (d : EventDispatcher) : bool :=
  negb (queue_empty d) || negb (running d).

(** One step of the thread that runs [startEventloop]. *)
Definition loop_step (b : Bus) : Bus :=
  let d := disp b in
  match pc b with
  | AtWhile =>
      if running d then mkBus d AtWait (world b) (out b)
      else mkBus d Returned (world b) (out b)
  | AtWait =>
      if loopAsleep d then b
      else if wait_pred d
           then mkBus d AtRunningCheck (world b) (out b)
           else mkBus (mkDispatcher (running d) (eventQueue d) true
                                    (handlerContainer d))
                      AtWait (world b) (out b)
  | AtRunningCheck =>
      if negb (running d) then mkBus d Returned (world b) (out b)
      else mkBus d AtDrain (world b) (out b)
  | AtDrain =>
      match eventQueue d with
      | [] => mkBus d AtWhile (world b) (out b)
      | e :: q =>
          mkBus (mkDispatcher (running d) q (loopAsleep d) (handlerContainer d))
                (AtDispatch e) (world b) (out b)
      end
  | AtDispatch e =>
      match find_handler (handlerContainer d) (type e) with
      | Some h => mkBus d AtDrain (h e (world b)) (out b ++ [Invoked (type e) e])
      | None => mkBus d AtDrain (world b) (out b ++ [Cerr no_handler_msg])
      end
  | Returned => b
  end.

(** [n] consecutive steps of the loop thread. *)
Fixpoint loop_run (n : nat) (b : Bus) : Bus :=
  match n with
  | O => b
  | S n' => loop_run n' (loop_step b)
  end.

(** Lifting of the dispatcher's public operations to the whole state. *)
Definition on_disp (f : EventDispatcher -> EventDispatcher) (b : Bus) : Bus :=
  mkBus (f (disp b)) (pc b) (world b) (out b).

(** What a scheduler can do: let some thread post, or let the loop run
    one step. *)
Inductive Action : Type :=
  | Post (e : Event Mat)
  | Tick.

Definition act (a : Action) (b : Bus) : Bus :=
  match a with
  | Post e => on_disp (postEvent e) b
  | Tick => loop_step b
  end.

Definition run_schedule (sched : list Action) (b : Bus) : Bus :=
  fold_left (fun b a => act a b) sched b.

Fixpoint posted (sched : list Action) : list (Event Mat) :=
  match sched with
  | [] => []
  | Post e :: s => e :: posted s
  | Tick :: s => posted s
  end.

(** A dispatcher after the registrations [regs] (in call order), with the
    loop thread about to enter [startEventloop]. *)
Definition register_all (regs : list (EventType * Handler))
    (d : EventDispatcher) : EventDispatcher :=
  fold_left (fun d r => registerHandler (fst r) (snd r) d) regs d.

Definition boot (regs : list (EventType * Handler)) (w : W) : Bus :=
  mkBus (register_all regs new_dispatcher) AtWhile w [].

(** The effect of dispatching one event under a handler table. *)
Definition dispatch_world (hs : gmap EventType Handler) (w : W)
    (e : Event Mat) : W :=
  match find_handler hs (type e) with
  | Some h => h e w
  | None => w
  end.

Definition dispatch_obs (hs : gmap EventType Handler) (e : Event Mat) : Obs :=
  match find_handler hs (type e) with
  | Some _ => Invoked (type e) e
  | None => Cerr no_handler_msg
  end.

(** Invariant of the running bus.  [P] is the list of events posted so
    far.  The events already dispatched, the one in the hands of the loop,
    and the queue make up [P] in order. *)
Definition in_flight (b : Bus) : list (Event Mat) :=
  match pc b with
  | AtDispatch e => [e]
  | _ => []
  end.

Definition bus_inv (hs : gmap EventType Handler) (w0 : W)
    (P : list (Event Mat)) (b : Bus) : Prop :=
  exists done,
    P = done ++ in_flight b ++ eventQueue (disp b)
    /\ out b = map (dispatch_obs hs) done
    /\ world b = fold_left (dispatch_world hs) done w0
    /\ running (disp b) = true
    /\ handlerContainer (disp b) = hs
    /\ (loopAsleep (disp b) = true -> pc b = AtWait /\ eventQueue (disp b) = [])
    /\ pc b <> Returned.

(** The state in which the loop sleeps with nothing left to do, after the
    events [P]. *)
Definition quiescent (hs : gmap EventType Handler) (w0 : W)
    (P : list (Event Mat)) : Bus :=
  mkBus (mkDispatcher true [] true hs) AtWait
        (fold_left (dispatch_world hs) P w0)
        (map (dispatch_obs hs) P).

(** The loop asleep on an empty queue: the state two steps after [boot]. *)
Definition asleep_on_empty (regs : list (EventType * Handler)) (w0 : W) : Bus :=
  loop_run 2 (boot regs w0).

End WithWorld.
Arguments EventDispatcher : clear implicits.
Arguments Bus : clear implicits.
Arguments Handler : clear implicits.
Arguments Obs : clear implicits.
Arguments LoopPc : clear implicits.
Arguments Action : clear implicits.
End Dispatcher.

(** ** IEEE 754 binary32 and binary64, the C++ [float] and [double] *)

Module F32.
Definition prec : Z := 24.
Definition emax : Z := 128.
Definition float : Type := spec_float.

(** Conversion from [int]: the nearest [float]. *)
Definition of_Z (n : Z) : float := binary_normalize prec emax n 0 false.
Definition zero : float := S754_zero false.
Definition add : float -> float -> float := SFadd prec emax.
Definition sub : float -> float -> float := SFsub prec emax.
Definition mul : float -> float -> float := SFmul prec emax.
Definition div : float -> float -> float := SFdiv prec emax.
Definition ltb : float -> float -> bool := SFltb.
Definition leb : float -> float -> bool := SFleb.

(** [(int)f]: truncation toward zero.  The cast of a NaN, an infinity or
    a value outside the range of [int] is undefined in C++; the model
    yields the exact truncation where there is one and [0] otherwise. *)
Definition to_int (f : float) : Z :=
  match f with
  | S754_finite s m e =>
      let v := if (0 <=? e)%Z then Z.shiftl (Zpos m) e
               else Z.shiftr (Zpos m) (- e) in
      if s then - v else v
  | _ => 0
  end.
End F32.

Module F64.
Definition prec : Z := 53.
Definition emax : Z := 1024.
Definition double : Type := spec_float.
Definition of_Z (n : Z) : double := binary_normalize prec emax n 0 false.
Definition div : double -> double -> double := SFdiv prec emax.

(** The narrowing conversion [double -> float]: round to nearest even. *)
Definition to_float (x : double) : F32.float :=
  match x with
  | S754_finite s m e => binary_round F32.prec F32.emax s m e
  | _ => x
  end.
End F64.

(** ** The OpenCV calls made on frames

    [cv::Mat] is a library type and drawing on it is library code: the
    calls the sources make are the methods of this interface. *)

Record Rect : Type := mkRect { rx : Z; ry : Z; rwidth : Z; rheight : Z }.

(** [cv::Scalar(b, g, r)]. *)
Record Scalar : Type := mkScalar { sb : Z; sg : Z; sr : Z }.

Class OpenCV (Mat : Type) : Type := {
  (* m.rows, m.cols *)
  mat_rows : Mat -> Z;
  mat_cols : Mat -> Z;
  (* cv::rectangle(m, box, color, thickness) *)
  rectangle : Mat -> Rect -> Scalar -> Z -> Mat;
  (* cv::putText(m, label, Point(x, y), FONT_HERSHEY_SIMPLEX, 0.75, color, 2) *)
  putText : Mat -> string -> Z * Z -> Scalar -> Mat;
  (* cv::getTextSize(label, FONT_HERSHEY_SIMPLEX, 0.5, 1, &baseLine).height *)
  getTextSize_height : string -> Z
}.

(** ** Post-processing of detections (inference_engine.cpp, lines 48-75) *)

Module Detect.

(** One output blob of the network: a matrix of [float], by rows. *)
Definition DetMat : Type := list (list F32.float).

(** [detection.at<float>(i, j)] within row [i].  A read past the end of
    the row is undefined in C++; the model reads [+0]. *)
Definition at_ (row : list F32.float) (j : nat) : F32.float :=
  nth j row F32.zero.

(** [std::max_element(first, last) - first]: the index of the first
    largest element under [operator<]; [0] on an empty range. *)
Fixpoint max_element_from (best_i : nat) (best : F32.float) (i : nat)
    (l : list F32.float) : nat :=
  match l with
  | [] => best_i
  | x :: l' =>
      if F32.ltb best x then max_element_from i x (S i) l'
      else max_element_from best_i best (S i) l'
  end.

Definition max_element (l : list F32.float) : nat :=
  match l with
  | [] => O
  | x :: l' => max_element_from O x 1 l'
  end.

Definition probability_index : nat := 5.

(** [objectClass] of lines 53-55. *)
Definition objectClass (row : list F32.float) : nat :=
  max_element (drop probability_index row).

(** [confidence] of line 56. *)
Definition confidence (row : list F32.float) : F32.float :=
  at_ row (objectClass row + probability_index).

(** The test of line 58: [confidence > confidenceThreshold]. *)
Definition passes (confidenceThreshold : F32.float) (row : list F32.float) : bool :=
  F32.ltb confidenceThreshold (confidence row).

(** The box of lines 59-63. *)
Definition box_of (rows cols : Z) (row : list F32.float) : Rect :=
  let x_center := F32.mul (at_ row 0) (F32.of_Z cols) in
  let y_center := F32.mul (at_ row 1) (F32.of_Z rows) in
  let width := F32.mul (at_ row 2) (F32.of_Z cols) in
  let height := F32.mul (at_ row 3) (F32.of_Z rows) in
  mkRect (F32.to_int (F32.sub x_center (F32.div width (F32.of_Z 2))))
         (F32.to_int (F32.sub y_center (F32.div height (F32.of_Z 2))))
         (F32.to_int width) (F32.to_int height).

Section WithMat.
Context {Mat : Type} `{OpenCV Mat}.

(** The members of [InferenceEngine] the loop reads. *)
Record Engine : Type := mkEngine {
  confidenceThreshold : F32.float;
  classes : list string;
  colors : list Scalar
}.

(** [classes[k]], [colors[k]]: past the end the C++ read is undefined;
    the model reads an empty label and a black colour. *)
Definition class_at (eng : Engine) (k : nat) : string :=
  nth k (classes eng) EmptyString.
Definition color_at (eng : Engine) (k : nat) : Scalar :=
  nth k (colors eng) (mkScalar 0 0 0).

(** The loop state: [boxes] and the frame drawn on so far. *)
Definition Acc : Type := (list Rect * Mat)%type.

(** The body of the inner [for], lines 52-73, for one row. *)
Definition process_row (eng : Engine) (acc : Acc) (row : list F32.float) : Acc :=
  let '(boxes, frame) := acc in
  if passes (confidenceThreshold eng) row then
    let k := objectClass row in
    let box := box_of (mat_rows frame) (mat_cols frame) row in
    let frame1 := rectangle frame box (color_at eng k) 2 in
    let label := class_at eng k in
    let top := Z.max (ry box) (getTextSize_height label) in
    (boxes ++ [box], putText frame1 label (rx box, top) (color_at eng k))
  else acc.

(** The inner [for] over the rows of one blob, and the outer [for] over
    the blobs. *)
Definition process_detection (eng : Engine) (acc : Acc) (detection : DetMat) : Acc :=
  fold_left (process_row eng) detection acc.

Definition process_detections (eng : Engine) (detections : list DetMat)
    (frame : Mat) : Acc :=
  fold_left (process_detection eng) detections ([], frame).
End WithMat.
Arguments Engine : clear implicits.
End Detect.

(** ** [class IProcessor] and the stage loops
       (iprocessor.cpp, defogger.cpp, inference_engine.cpp, video_processor.cpp) *)

Module Processor.
Section WithMat.
Context {Mat : Type}.

(** The fields of [IProcessor] that its code reads or writes.
    [workerAsleep] is the state of the stage's [queueCondition]. *)
Record IProcessor : Type := mkProcessor {
  running : bool;
  frameQueue : list (Mat * Mat);
  workerAsleep : bool
}.

(** [IProcessor::IProcessor(..) : running(false)]. *)
Definition new_processor : IProcessor := mkProcessor false [] false.

(** The four classes derived from [IProcessor], with each one's
    [getAccessibleType()]. *)
Inductive StageKind : Type :=
  | VideoProcessor
  | Defogger
  | InferenceEngine
  | GUIRenderer.

Definition getAccessibleType (k : StageKind) : EventType :=
  match k with
  | VideoProcessor => InitialState
  | Defogger => FrameCaptureReady
  | InferenceEngine => FrameDefoggerReady
  | GUIRenderer => FrameDetectionReady
  end.

Definition notify (p : IProcessor) : IProcessor :=
  mkProcessor (running p) (frameQueue p) false.

(** [start()]: [running.store(true)]; the worker thread it spawns starts
    at [WWhile] below. *)
Definition start (p : IProcessor) : IProcessor :=
  mkProcessor true (frameQueue p) (workerAsleep p).

(** [stop()]: [running.store(false); queueCondition.notify_all();] the
    [join] that follows waits for the worker to reach [WReturned]. *)
Definition stop (p : IProcessor) : IProcessor :=
  notify (mkProcessor false (frameQueue p) (workerAsleep p)).

(** [handleEvent] of a stage of class [k]. *)
Definition handleEvent (k : StageKind) (e : Event Mat) (p : IProcessor) : IProcessor :=
  if decide (type e = InitialState) then p
  else if decide (type e = getAccessibleType k)
       then notify (mkProcessor (running p) (frameQueue p ++ [data e])
                                (workerAsleep p))
       else p.

(** Program counter of a worker inside [Defogger::processEvents] or
    [InferenceEngine::processEvents]; the two loops have the same lines
    up to the transform. *)
Inductive WorkerPc : Type :=
  | WWhile                          (* while (running.load())            *)
  | WWait                           (* queueCondition.wait(lock, ..)     *)
  | WRunningCheck                   (* if (!running.load()) break        *)
  | WBody (frames : Mat * Mat)      (* transform, postEvent, release     *)
  | WReturned                       (* processEvents has returned        *)
  | WUndefined.                     (* frameQueue.front() on an empty queue *)

Record Stage : Type := mkStage {
  proc : IProcessor;
  wpc : WorkerPc
}.

Definition wait_pred (p : IProcessor) : bool :=
  negb (match frameQueue p with [] => true | _ => false end) || negb (running p).

Section Loop.
Context {W : Type}.

(** A worker with the bus it posts to. *)
Definition Config : Type := (Stage * Dispatcher.EventDispatcher Mat W)%type.

(** [Defogger::processEvents] (defogger.cpp lines 12-33), one step.  The
    whole of [defog] is the parameter [defog]. *)
Definition Defogger_processEvents_step (defog : Mat -> Mat) (sd : Config) : Config :=
  let '(s, d) := sd in
  let p := proc s in
  match wpc s with
  | WWhile =>                                               (* line 13 *)
      if running p then (mkStage p WWait, d) else (mkStage p WReturned, d)
  | WWait =>                                                (* line 15 *)
      if workerAsleep p then sd
      else if wait_pred p then (mkStage p WRunningCheck, d)
           else (mkStage (mkProcessor (running p) (frameQueue p) true) WWait, d)
  | WRunningCheck =>
      if negb (running p) then (mkStage p WReturned, d)     (* line 17 *)
      else match frameQueue p with                          (* lines 19-21 *)
           | frames :: q =>
               (mkStage (mkProcessor (running p) q (workerAsleep p))
                        (WBody frames), d)
           | [] => (mkStage p WUndefined, d)
           end
  | WBody frames =>                                         (* lines 22-31 *)
      let defoggedFrame := defog (snd frames) in
      (mkStage p WWhile,
       Dispatcher.postEvent
         (mkEvent FrameDefoggerReady (fst frames, defoggedFrame)) d)
  | WReturned => sd
  | WUndefined => sd
  end.

(** [InferenceEngine::processEvents] (inference_engine.cpp lines 31-80),
    one step; the network has been loaded.  [forward] is the OpenCV DNN
    call of lines 42-46, the rest of the body is [Detect.process_detections]
    drawing on [frames.second]. *)
Definition InferenceEngine_processEvents_step `{OpenCV Mat} (eng : Detect.Engine)
    (forward : Mat -> list Detect.DetMat) (sd : Config) : Config :=
  let '(s, d) := sd in
  let p := proc s in
  match wpc s with
  | WWhile =>                                               (* line 31 *)
      if running p then (mkStage p WWait, d) else (mkStage p WReturned, d)
  | WWait =>                                                (* line 33 *)
      if workerAsleep p then sd
      else if wait_pred p then (mkStage p WRunningCheck, d)
           else (mkStage (mkProcessor (running p) (frameQueue p) true) WWait, d)
  | WRunningCheck =>
      if negb (running p) then (mkStage p WReturned, d)     (* line 35 *)
      else match frameQueue p with                          (* lines 37-39 *)
           | frames :: q =>
               (mkStage (mkProcessor (running p) q (workerAsleep p))
                        (WBody frames), d)
           | [] => (mkStage p WUndefined, d)
           end
  | WBody frames =>                                         (* lines 41-79 *)
      let detections := forward (snd frames) in
      let '(boxes, second) :=
        Detect.process_detections eng detections (snd frames) in
      (mkStage p WWhile,
       Dispatcher.postEvent
         (mkEvent FrameDetectionReady (fst frames, second)) d)
  | WReturned => sd
  | WUndefined => sd
  end.

(** [n] consecutive steps of a worker. *)
Fixpoint run_steps (step : Config -> Config) (n : nat) (sd : Config) : Config :=
  match n with
  | O => sd
  | S n' => run_steps step n' (step sd)
  end.

(** The event each stage posts for the payload [frames]. *)
Definition Defogger_output (defog : Mat -> Mat) (frames : Mat * Mat) : Event Mat :=
  mkEvent FrameDefoggerReady (fst frames, defog (snd frames)).

Definition InferenceEngine_output `{OpenCV Mat} (eng : Detect.Engine)
    (forward : Mat -> list Detect.DetMat) (frames : Mat * Mat) : Event Mat :=
  mkEvent FrameDetectionReady
    (fst frames,
     snd (Detect.process_detections eng (forward (snd frames)) (snd frames))).

(** What a loop with step function [step] does at the check that follows
    a wake-up, as the code has it: it returns exactly when the stage has
    been stopped, touching neither queue nor bus; when the stage is running
    and a payload is queued, the iteration takes the oldest payload and
    posts [output] of it. *)
Definition exit_follows_running_flag (step : Config -> Config)
    (output : Mat * Mat -> Event Mat) (s : Stage)
    (d : Dispatcher.EventDispatcher Mat W) : Prop :=
  (running (proc s) = false -> step (s, d) = (mkStage (proc s) WReturned, d))
  /\ (wpc (fst (step (s, d))) = WReturned -> running (proc s) = false)
  /\ (forall frames q,
        running (proc s) = true ->
        frameQueue (proc s) = frames :: q ->
        run_steps step 2 (s, d)
        = (mkStage (mkProcessor true q (workerAsleep (proc s))) WWhile,
           Dispatcher.postEvent (output frames) d)).

(** The same check as the specification words it: the loop leaves only
    when the stage is stopping and its queue is empty, and a payload found
    on wake-up is processed even if a stop has been requested. *)
Definition exits_only_when_drained (step : Config -> Config)
    (output : Mat * Mat -> Event Mat) : Prop :=
  forall (s : Stage) (d : Dispatcher.EventDispatcher Mat W),
    wpc s = WRunningCheck ->
    (wpc (fst (step (s, d))) = WReturned ->
     running (proc s) = false /\ frameQueue (proc s) = [])
    /\ (forall frames q,
          frameQueue (proc s) = frames :: q ->
          snd (run_steps step 2 (s, d))
          = Dispatcher.postEvent (output frames) d).
End Loop.

(** The four stages [main] creates; this is what the registered handlers
    act on. *)
Record Pipeline : Type := mkPipeline {
  videoProcessor : IProcessor;
  defogger : IProcessor;
  inferenceEngine : IProcessor;
  guiRenderer : IProcessor
}.

Definition new_pipeline : Pipeline :=
  mkPipeline new_processor new_processor new_processor new_processor.

(** [std::bind(&Defogger::handleEvent, &defogger, _1)] and its siblings. *)
Definition defogger_handler : Dispatcher.Handler Mat Pipeline :=
  fun e w => mkPipeline (videoProcessor w) (handleEvent Defogger e (defogger w))
                        (inferenceEngine w) (guiRenderer w).
Definition inferenceEngine_handler : Dispatcher.Handler Mat Pipeline :=
  fun e w => mkPipeline (videoProcessor w) (defogger w)
                        (handleEvent InferenceEngine e (inferenceEngine w))
                        (guiRenderer w).
Definition guiRenderer_handler : Dispatcher.Handler Mat Pipeline :=
  fun e w => mkPipeline (videoProcessor w) (defogger w) (inferenceEngine w)
                        (handleEvent GUIRenderer e (guiRenderer w)).

(** The three [registerHandler] calls of [main], in order. *)
Definition main_registrations : list (EventType * Dispatcher.Handler Mat Pipeline) :=
  [ (FrameCaptureReady, defogger_handler);
    (FrameDefoggerReady, inferenceEngine_handler);
    (FrameDetectionReady, guiRenderer_handler) ].

(** The four [start()] calls of [main], in order. *)
Definition main_starts : list StageKind :=
  [GUIRenderer; InferenceEngine; Defogger; VideoProcessor].

Definition start_stage (k : StageKind) (w : Pipeline) : Pipeline :=
  match k with
  | VideoProcessor =>
      mkPipeline (start (videoProcessor w)) (defogger w) (inferenceEngine w) (guiRenderer w)
  | Defogger =>
      mkPipeline (videoProcessor w) (start (defogger w)) (inferenceEngine w) (guiRenderer w)
  | InferenceEngine =>
      mkPipeline (videoProcessor w) (defogger w) (start (inferenceEngine w)) (guiRenderer w)
  | GUIRenderer =>
      mkPipeline (videoProcessor w) (defogger w) (inferenceEngine w) (start (guiRenderer w))
  end.
End WithMat.
Arguments IProcessor : clear implicits.
Arguments Stage : clear implicits.
Arguments WorkerPc : clear implicits.
Arguments Pipeline : clear implicits.
End Processor.

(** ** Atmospheric light (defogger.cpp lines 75-95, defogger.h lines 137-150) *)

Module Defog.

(** [cv::Vec3f]: the three channels of one pixel of the normalized
    source. *)
Record Vec3f : Type := mkVec3f { c0 : F32.float; c1 : F32.float; c2 : F32.float }.

Definition channel (c : nat) (v : Vec3f) : F32.float :=
  match c with
  | O => c0 v
  | S O => c1 v
  | _ => c2 v
  end.

(** [float tA[3] = { 0 }] in [defog]. *)
Definition zero3 : Vec3f := mkVec3f F32.zero F32.zero F32.zero.

(** One round of the accumulation, on whole pixels. *)
Definition add3 (a px : Vec3f) : Vec3f :=
  mkVec3f (F32.add (c0 a) (c0 px)) (F32.add (c1 a) (c1 px)) (F32.add (c2 a) (c2 px)).

Section WithSort.
(** [std::sort(first, last, comp)] on a vector of indices.  The
    standard fixes its result only up to the order of equivalent
    elements, so the call is a parameter. *)
Variable sort : (nat -> nat -> bool) -> list nat -> list nat.

(** [pArray[tPos]] for a position the vector has. *)
Definition at_ (pArray : list F32.float) (tPos : nat) : F32.float :=
  nth tPos pArray F32.zero.

(** [argsort]: the indices [0 .. size-1], sorted by the values they
    point to. *)
Definition argsort (pArray : list F32.float) : list nat :=
  let tArrayLen := length pArray in
  let tArrayIndex := seq 0 tArrayLen in
  sort (fun tPos1 tPos2 => F32.ltb (at_ pArray tPos1) (at_ pArray tPos2))
       tArrayIndex.

(** One round of the [for] of lines 87-91: [pOutA[c] +=
    tSrcVector.at<Vec3f>(tDstIndices[i], 0)[c]].  [None] is an access
    outside [tDstIndices] or outside the image. *)
Definition add_pixel (tSrcVector : list Vec3f) (tDstIndices : list nat)
    (acc : option Vec3f) (i : nat) : option Vec3f :=
  match acc, tDstIndices !! i with
  | Some a, Some k =>
      match tSrcVector !! k with
      | Some px =>
          Some (mkVec3f (F32.add (c0 a) (c0 px)) (F32.add (c1 a) (c1 px))
                        (F32.add (c2 a) (c2 px)))
      | None => None
      end
  | _, _ => None
  end.

(** [tNumpx = int(cv::max(floor(imgSize / 1000), 1.0))], with the
    integer division of C++. *)
Definition numpx (imgSize : Z) : Z := Z.max (Z.quot imgSize 1000) 1.

(** [atmLight(pSource, pDark, pOutA)].  The image comes flattened in
    row-major order, as the two [reshape] calls deliver it; both must
    hold [rows * cols] elements.  [pOutA] is read and written. *)
Definition atmLight (row col : Z) (pSource : list Vec3f)
    (pDark : list F32.float) (pOutA : Vec3f) : option Vec3f :=
  let imgSize := row * col in
  if negb ((Z.of_nat (length pDark) =? imgSize)
           && (Z.of_nat (length pSource) =? imgSize)) then None
  else
    let tDarkVector := pDark in
    let tSrcVector := pSource in
    let tNumpx := numpx imgSize in
    let tIndices := argsort tDarkVector in
    if imgSize - tNumpx <? 0 then None
    else
      let tDstIndices := drop (Z.to_nat (imgSize - tNumpx)) tIndices in
      match fold_left (add_pixel tSrcVector tDstIndices)
                      (seq 0 (Z.to_nat tNumpx)) (Some pOutA) with
      | Some s =>
          Some (mkVec3f (F32.div (c0 s) (F32.of_Z tNumpx))
                        (F32.div (c1 s) (F32.of_Z tNumpx))
                        (F32.div (c2 s) (F32.of_Z tNumpx)))
      | None => None
      end.
End WithSort.

(** What [std::sort] promises about its result [l'] on input [l] under
    [comp]: the same elements, and no element ordered before an earlier
    one. *)
Definition sort_post (comp : nat -> nat -> bool) (l l' : list nat) : Prop :=
  Permutation l l' /\
  forall i j a b, (i < j)%nat -> l' !! i = Some a -> l' !! j = Some b ->
                  comp b a = false.

(** The comparator [argsort] passes to [std::sort]. *)
Definition dark_comp (pDark : list F32.float) (tPos1 tPos2 : nat) : bool :=
  F32.ltb (at_ pDark tPos1) (at_ pDark tPos2).

(** The estimate in the words of the specification: the average, channel
    by channel, of the source pixels over a set [sel] of pixel indices. *)
Definition channel_mean (pSource : list Vec3f) (sel : list nat) (c : nat) : F32.float :=
  F32.div
    (fold_left F32.add
       (map (fun k => channel c (nth k pSource zero3)) sel) F32.zero)
    (F32.of_Z (Z.of_nat (length sel))).

Definition mean_over (pSource : list Vec3f) (sel : list nat) : Vec3f :=
  mkVec3f (channel_mean pSource sel 0) (channel_mean pSource sel 1)
          (channel_mean pSource sel 2).

(** [sel] holds pixels with the brightest dark-channel values: no pixel
    outside it is strictly brighter than one inside. *)
Definition brightest (pDark : list F32.float) (sel : list nat) : Prop :=
  forall k j, In k sel -> (j < length pDark)%nat -> ~ In j sel ->
              F32.ltb (at_ pDark k) (at_ pDark j) = false.

(** A stand-in for [std::sort] to run the model on: insertion sort. *)
Fixpoint insert_sorted (comp : nat -> nat -> bool) (x : nat) (l : list nat) : list nat :=
  match l with
  | [] => [x]
  | y :: l' => if comp x y then x :: l else y :: insert_sorted comp x l'
  end.

Definition insertion_sort (comp : nat -> nat -> bool) (l : list nat) : list nat :=
  fold_right (insert_sorted comp) [] l.
End Defog.

(** ** Command line and [main] (commandline_args.cpp, main.cpp) *)

Module Cli.

(** The three ways a call of [std::stod] ends. *)
Inductive StodResult : Type :=
  | StodValue (v : F64.double)
  | StodInvalidArgument
  | StodOutOfRange.

(** The lines the program writes. *)
Inductive Output : Type :=
  | OutValidThreshold (v : F64.double)   (* cout: v " is a valid threshold."   *)
  | ErrInvalidThreshold                  (* cerr: "Error: Invalid threshold value." *)
  | OutValidUrl (path : string)          (* cout: path " is a valid URL."      *)
  | OutValidFile (path : string)         (* cout: path " is a valid file."     *)
  | ErrNoSuchPath (path : string)        (* cerr: "Error: path(..) does not exist." *)
  | ErrUsage (programName : string).     (* cerr: "Usage: .. --modelPath:<path> .." *)

(** The members of [CommandLineArgs]. *)
Record CommandLineArgs : Type := mkArgs {
  modelPath : string;
  videoPath : string;
  confidenceThreshold : F64.double
}.

(** [double confidenceThreshold = 0.3;] *)
Definition default_threshold : F64.double := F64.div (F64.of_Z 3) (F64.of_Z 10).

(** *** [isValidUrl]: [std::regex_match] against
        [^(https?|ftp)://[^\s/$.?#].[^\s]*$] *)

(** [\s]: space, tab, line feed, vertical tab, form feed, carriage return. *)
Definition is_space (c : ascii) : bool :=
  let n := nat_of_ascii c in
  (n =? 32)%nat || ((9 <=? n)%nat && (n <=? 13)%nat).

(** [.] matches every character but a line terminator. *)
Definition is_line_terminator (c : ascii) : bool :=
  let n := nat_of_ascii c in (n =? 10)%nat || (n =? 13)%nat.

(** [[^\s/$.?#]] *)
Definition url_first_char (c : ascii) : bool :=
  negb (is_space c
        || Ascii.eqb c "/" || Ascii.eqb c "$" || Ascii.eqb c "."
        || Ascii.eqb c "?" || Ascii.eqb c "#").

(** [[^\s]*] up to the end. *)
Fixpoint no_space (s : string) : bool :=
  match s with
  | EmptyString => true
  | String c s' => negb (is_space c) && no_space s'
  end.

(** [[^\s/$.?#].[^\s]*] up to the end. *)
Definition url_tail (s : string) : bool :=
  match s with
  | String a (String b rest) =>
      url_first_char a && negb (is_line_terminator b) && no_space rest
  | _ => false
  end.

Fixpoint strip_prefix (p s : string) : option string :=
  match p, s with
  | EmptyString, _ => Some s
  | String a p', String b s' => if Ascii.eqb a b then strip_prefix p' s' else None
  | String _ _, EmptyString => None
  end.

Definition isValidUrl (url : string) : bool :=
  match strip_prefix "https://" url with
  | Some r => url_tail r
  | None =>
      match strip_prefix "http://" url with
      | Some r => url_tail r
      | None =>
          match strip_prefix "ftp://" url with
          | Some r => url_tail r
          | None => false
          end
      end
  end.

(** [arg.find(':')]: the position of the first colon. *)
Fixpoint find_colon (s : string) : option nat :=
  match s with
  | EmptyString => None
  | String c s' =>
      if Ascii.eqb c ":" then Some O
      else match find_colon s' with
           | Some n => Some (S n)
           | None => None
           end
  end.

(** The body of the [for] of lines 29-37. *)
Definition add_arg (args : gmap string string) (arg : string) : gmap string string :=
  match find_colon arg with
  | Some pos =>
      let key := String.substring 0 pos arg in
      let value := String.substring (pos + 1) (String.length arg - (pos + 1)) arg in
      <[key := value]> args
  | None => args
  end.

(** What [main] can have done when this model stops following it. *)
Inductive Outcome (Mat : Type) : Type :=
  | Exited (status : Z)
(* [main] returned [status] *)
| Terminated
(* an exception left [main]: [std::terminate] *)
| Running (threshold : F32.float)
      (bus : Dispatcher.Bus Mat (Processor.Pipeline Mat))
      (started : list Processor.StageKind).
(* [main] is inside [dispatcher.startEventloop()] *)
Arguments Exited {Mat} _.
Arguments Terminated {Mat}.
Arguments Running {Mat} _ _ _.

Section WithEnvironment.
(** [std::filesystem::exists] and [std::stod] are the environment.  A
    call of [exists] answers, or it throws
    [std::filesystem::filesystem_error] (a name that is too long, a
    directory that may not be searched, ...): [None].  Nothing in the
    program catches that exception. *)
Variable fileExists : string -> option bool.
Variable stod : string -> StodResult.

(** The map [args] after the [for] of lines 29-37, which starts at
    [argv[1]], and the value it holds for a key (empty when absent, as the
    members are before assignment). *)
Definition parsed_args (argv : list string) : gmap string string :=
  fold_left add_arg (tail argv) ∅.

Definition value_or_empty (args : gmap string string) (key : string) : string :=
  match args !! key with
  | Some v => v
  | None => EmptyString
  end.

(** [parseArguments(argc, argv)] on a fresh object.  [None] is the
    exception [std::out_of_range], which the [catch] does not name. *)
Definition parseArguments (argv : list string)
    : list Output * option CommandLineArgs :=
  let args := parsed_args argv in
  let modelPath := value_or_empty args "--modelPath" in
  let videoPath := value_or_empty args "--videoPath" in
  match args !! "--threshold" with
  | Some v =>
      match stod v with
      | StodValue x =>
          ([OutValidThreshold x], Some (mkArgs modelPath videoPath x))
      | StodInvalidArgument =>
          ([ErrInvalidThreshold], Some (mkArgs modelPath videoPath default_threshold))
      | StodOutOfRange => ([], None)
      end
  | None => ([], Some (mkArgs modelPath videoPath default_threshold))
  end.

(** What a path is to the program: a well-formed URL or an existing
    file is accepted, a path that [exists] denies is rejected, and a path
    on which [exists] throws ends the program. *)
Inductive Verdict : Type := Accepted | Rejected | Throws.

Definition path_verdict (path : string) : Verdict :=
  if isValidUrl path then Accepted
  else match fileExists path with
       | Some true => Accepted
       | Some false => Rejected
       | None => Throws
       end.

(** [validatePath]; [None] for the result when [fileExists] throws. *)
Definition validatePath (path : string) : list Output * option bool :=
  if isValidUrl path then ([OutValidUrl path], Some true)
  else match fileExists path with
       | Some true => ([OutValidFile path], Some true)
       | Some false => ([ErrNoSuchPath path], Some false)
       | None => ([], None)
       end.

(** [validateArguments]: [validatePath(modelPath) && validatePath(videoPath)],
    the second call only when the first returned [true]. *)
Definition validateArguments (a : CommandLineArgs) : list Output * option bool :=
  match validatePath (modelPath a) with
  | (o1, Some true) =>
      let '(o2, r2) := validatePath (videoPath a) in (o1 ++ o2, r2)
  | (o1, r1) => (o1, r1)
  end.

(** [main], followed until it returns or enters the event loop.  It has
    no [try]: an exception of [parseArguments] or [validateArguments]
    leaves it. *)
Definition main {Mat : Type} (argv : list string) : list Output * Outcome Mat :=
  match parseArguments argv with
  | (o, None) => (o, Terminated)
  | (o, Some cmdArgs) =>
      match validateArguments cmdArgs with
      | (o', None) => (o ++ o', Terminated)
      | (o', Some false) =>
          (o ++ o' ++ [ErrUsage (hd EmptyString argv)], Exited 1)
      | (o', Some true) =>
          let dispatcher :=
            Dispatcher.register_all Processor.main_registrations
                                    Dispatcher.new_dispatcher in
          let stages :=
            fold_left (fun w k => Processor.start_stage k w)
                      Processor.main_starts Processor.new_pipeline in
          (o ++ o',
           Running (F64.to_float (confidenceThreshold cmdArgs))
                   (Dispatcher.mkBus dispatcher Dispatcher.AtWhile stages [])
                   Processor.main_starts)
      end
  end.

(** The stages on which [start()] has been called. *)
Definition stages_started {Mat : Type} (r : Outcome Mat) : list Processor.StageKind :=
  match r with
  | Running _ _ started => started
  | _ => []
  end.

Definition usage_printed (o : list Output) : bool :=
  existsb (fun x => match x with ErrUsage _ => true | _ => false end) o.
End WithEnvironment.

(** A small [std::stod] to run the model on: an optional sign, decimal
    digits, an optional fraction.  No digit at all is
    [std::invalid_argument], as in the library. *)
Definition digit_of (c : ascii) : option Z :=
  let n := nat_of_ascii c in
  if ((48 <=? n)%nat && (n <=? 57)%nat)%bool then Some (Z.of_nat n - 48) else None.

Fixpoint read_digits (s : string) (acc : Z) (count : nat) : Z * nat * string :=
  match s with
  | EmptyString => (acc, count, s)
  | String c s' =>
      match digit_of c with
      | Some d => read_digits s' (10 * acc + d) (S count)
      | None => (acc, count, s)
      end
  end.

Definition stod_decimal (s : string) : StodResult :=
  let '(neg, s1) :=
    match s with
    | String c s' =>
        if Ascii.eqb c "-" then (true, s')
        else if Ascii.eqb c "+" then (false, s') else (false, s)
    | EmptyString => (false, s)
    end in
  let '(ip, ni, s2) := read_digits s1 0 O in
  let '(fp, nf) :=
    match s2 with
    | String c s3 =>
        if Ascii.eqb c "." then
          let '(f, n, _) := read_digits s3 ip O in (f, n)
        else (ip, O)
    | EmptyString => (ip, O)
    end in
  if ((ni + nf)%nat =? 0)%nat then StodInvalidArgument
  else
    let num := F64.of_Z (if neg then - fp else fp) in
    StodValue (F64.div num (F64.of_Z (10 ^ Z.of_nat nf))).
End Cli.

(** ** Concrete frames and inputs, to run the model on *)

Module Sample.

(** A frame that remembers what was drawn on it. *)
Inductive Draw : Type :=
  | DrawRect (box : Rect) (color : Scalar) (thickness : Z)
  | DrawText (label : string) (org : Z * Z) (color : Scalar).

Record Frame : Type := mkFrame {
  frame_no : Z;
  frame_rows : Z;
  frame_cols : Z;
  overlay : list Draw
}.

#[global] Instance Frame_OpenCV : OpenCV Frame := {
  mat_rows := frame_rows;
  mat_cols := frame_cols;
  rectangle := fun m box color thickness =>
    mkFrame (frame_no m) (frame_rows m) (frame_cols m)
            (overlay m ++ [DrawRect box color thickness]);
  putText := fun m label org color =>
    mkFrame (frame_no m) (frame_rows m) (frame_cols m)
            (overlay m ++ [DrawText label org color]);
  getTextSize_height := fun _ => 11
}.

Definition frame (n : Z) : Frame := mkFrame n 480 640 [].

Definition capture (n : Z) : Event Frame :=
  mkEvent FrameCaptureReady (frame n, frame n).
Definition defogged (n : Z) : Event Frame :=
  mkEvent FrameDefoggerReady (frame n, frame n).
Definition initial : Event Frame :=
  mkEvent InitialState (frame 0, frame 0).

(** A haze removal and a network to put in the stage loops: the first
    marks the frame, the second finds nothing. *)
Definition defog (m : Frame) : Frame :=
  mkFrame (frame_no m + 1000) (frame_rows m) (frame_cols m) (overlay m).
Definition forward_nothing (m : Frame) : list Detect.DetMat := [].

(** A bus whose handlers are the ones [main] registers. *)
Definition Bus : Type := Dispatcher.Bus Frame (Processor.Pipeline Frame).

Definition schedule : list (Dispatcher.Action Frame) :=
  [ Dispatcher.Post (capture 1); Dispatcher.Tick; Dispatcher.Tick;
    Dispatcher.Post (defogged 2); Dispatcher.Tick;
    Dispatcher.Post (capture 3) ].

(** A bus about to drain a queue whose first event, of type
    [InitialState], has no handler. *)
Definition draining_unhandled : Bus :=
  Dispatcher.mkBus
    (Dispatcher.mkDispatcher true [initial; capture 1] false
       (Dispatcher.handlerContainer
          (Dispatcher.register_all Processor.main_registrations
             Dispatcher.new_dispatcher)))
    Dispatcher.AtDrain Processor.new_pipeline [].

(** A haze-removal worker asleep on its empty queue; then the bus thread
    hands it a captured frame and, before the worker runs again, [stop()]
    is called. *)
Definition stopped_with_pending : Processor.Stage Frame :=
  Processor.mkStage
    (Processor.stop
       (Processor.handleEvent Processor.Defogger (capture 7)
          (Processor.mkProcessor true [] true)))
    Processor.WWait.

(** A running haze-removal worker that has just woken up with two payloads
    queued, and the same worker after [stop()]. *)
Definition woken_running : Processor.Stage Frame :=
  Processor.mkStage
    (Processor.mkProcessor true
       [(frame 1, frame 1); (frame 2, frame 2)] false)
    Processor.WRunningCheck.

Definition woken_stopped : Processor.Stage Frame :=
  Processor.mkStage (Processor.stop (Processor.proc woken_running))
                    Processor.WRunningCheck.

Definition empty_bus : Dispatcher.EventDispatcher Frame unit :=
  Dispatcher.new_dispatcher.

(** Floats: [1/2], [3/4], [1/10], [1/5], [9/10]. *)
Definition f_half : F32.float := F32.div (F32.of_Z 1) (F32.of_Z 2).
Definition f_3_4 : F32.float := F32.div (F32.of_Z 3) (F32.of_Z 4).
Definition f_1_10 : F32.float := F32.div (F32.of_Z 1) (F32.of_Z 10).
Definition f_1_5 : F32.float := F32.div (F32.of_Z 1) (F32.of_Z 5).
Definition f_9_10 : F32.float := F32.div (F32.of_Z 9) (F32.of_Z 10).

(** An engine with threshold [0.5] and two classes. *)
Definition engine : Detect.Engine :=
  Detect.mkEngine f_half ["person"; "car"] [mkScalar 0 0 255; mkScalar 0 255 0].

(** Rows [x, y, w, h, objectness, p0, p1]: the best class score of the
    first equals the threshold, that of the second is above it. *)
Definition row_at_threshold : list F32.float :=
  [f_half; f_half; f_1_5; f_1_5; f_9_10; f_half; f_1_10].
Definition row_above_threshold : list F32.float :=
  [f_half; f_half; f_1_5; f_1_5; f_9_10; f_1_10; f_3_4].

(** A 2 x 2 normalized image and its dark channel. *)
Definition px (b g r : F32.float) : Defog.Vec3f := Defog.mkVec3f b g r.
Definition image : list Defog.Vec3f :=
  [ px f_1_10 f_1_5 f_half; px f_3_4 f_9_10 f_3_4;
    px f_half f_half f_half; px f_1_5 f_1_10 f_1_10 ].
Definition dark : list F32.float := [f_1_10; f_3_4; f_half; f_1_10].

(** A file system with the model directory and one video, where a name
    of more than 255 characters makes [exists] throw; and such a name. *)
Definition fs (p : string) : option bool :=
  if (255 <? String.length p)%nat then None
  else Some (bool_decide (p = "/opt/yolo") || bool_decide (p = "/data/road.mp4")).

Definition long_name : string :=
  String.string_of_list_ascii (repeat "a"%char 256).
End Sample.

(** ** The registration table, the stages of [main] and the whole pipeline *)

Module Wiring.
Section WithMat.
Context {Mat : Type}.

(** The handler that the registrations [regs], made in this order, leave
    for the type [t]: the one of the last registration that names [t]. *)
Fixpoint last_registration {W : Type}
    (regs : list (EventType * Dispatcher.Handler Mat W)) (t : EventType)
    : option (Dispatcher.Handler Mat W) :=
  match regs with
  | [] => None
  | r :: rest =>
      match last_registration rest t with
      | Some h => Some h
      | None => if decide (fst r = t) then Some (snd r) else None
      end
  end.

(** The events whose payload [handleEvent] of a stage of class [k] puts on
    the queue. *)
Definition accepts (k : Processor.StageKind) (e : Event Mat) : bool :=
  bool_decide (type e <> InitialState /\ type e = Processor.getAccessibleType k).

(** The object of class [k] among the four that [main] creates. *)
Definition stage_of (k : Processor.StageKind) (w : Processor.Pipeline Mat)
    : Processor.IProcessor Mat :=
  match k with
  | Processor.VideoProcessor => Processor.videoProcessor w
  | Processor.Defogger => Processor.defogger w
  | Processor.InferenceEngine => Processor.inferenceEngine w
  | Processor.GUIRenderer => Processor.guiRenderer w
  end.

(** A bus that has been shut down: flag cleared, table empty. *)
Definition is_shut {W : Type} (b : Dispatcher.Bus Mat W) : Prop :=
  Dispatcher.running (Dispatcher.disp b) = false
  /\ Dispatcher.handlerContainer (Dispatcher.disp b) = ∅.

(** The table [main] has built when it enters the event loop. *)
Definition main_handlers
    : gmap EventType (Dispatcher.Handler Mat (Processor.Pipeline Mat)) :=
  Dispatcher.handlerContainer
    (Dispatcher.register_all Processor.main_registrations Dispatcher.new_dispatcher).

(** The program after the four [start()] calls of [main]: the bus about to
    enter [startEventloop], the haze-removal and detection workers at the
    head of their loops. *)
Record State : Type := mkState {
  bus : Dispatcher.Bus Mat (Processor.Pipeline Mat);
  defogger_pc : Processor.WorkerPc Mat;
  inference_pc : Processor.WorkerPc Mat
}.

Definition started : State :=
  mkState
    (Dispatcher.mkBus
       (Dispatcher.register_all Processor.main_registrations Dispatcher.new_dispatcher)
       Dispatcher.AtWhile
       (fold_left (fun w k => Processor.start_stage k w)
                  Processor.main_starts Processor.new_pipeline)
       [])
    Processor.WWhile Processor.WWhile.

(** What the scheduler can choose: a step of the bus loop, a step of one
    of the two workers, or the video source posting the frame it has read
    (video_processor.cpp line 32). *)
Inductive Move : Type :=
  | BusStep
  | DefoggerStep
  | InferenceStep
  | VideoPost (frame : Mat).

Section WithTransforms.
Context `{OpenCV Mat}.
Variable defog : Mat -> Mat.
Variable eng : Detect.Engine.
Variable forward : Mat -> list Detect.DetMat.

Definition move (m : Move) (st : State) : State :=
  let b := bus st in
  let w := Dispatcher.world b in
  match m with
  | BusStep => mkState (Dispatcher.loop_step b) (defogger_pc st) (inference_pc st)
  | VideoPost frame =>
      mkState
        (Dispatcher.on_disp
           (Dispatcher.postEvent (mkEvent FrameCaptureReady (frame, frame))) b)
        (defogger_pc st) (inference_pc st)
  | DefoggerStep =>
      let '(s, d) :=
        Processor.Defogger_processEvents_step defog
          (Processor.mkStage (Processor.defogger w) (defogger_pc st),
           Dispatcher.disp b) in
      mkState
        (Dispatcher.mkBus d (Dispatcher.pc b)
           (Processor.mkPipeline (Processor.videoProcessor w) (Processor.proc s)
              (Processor.inferenceEngine w) (Processor.guiRenderer w))
           (Dispatcher.out b))
        (Processor.wpc s) (inference_pc st)
  | InferenceStep =>
      let '(s, d) :=
        Processor.InferenceEngine_processEvents_step eng forward
          (Processor.mkStage (Processor.inferenceEngine w) (inference_pc st),
           Dispatcher.disp b) in
      mkState
        (Dispatcher.mkBus d (Dispatcher.pc b)
           (Processor.mkPipeline (Processor.videoProcessor w) (Processor.defogger w)
              (Processor.proc s) (Processor.guiRenderer w))
           (Dispatcher.out b))
        (defogger_pc st) (Processor.wpc s)
  end.

Definition moves (ms : list Move) (st : State) : State :=
  fold_left (fun st m => move m st) ms st.

(** One frame handed down the chain: the source posts it, then the bus,
    the haze-removal worker, the bus, the detection worker and the bus run
    in turn, each for [n] steps. *)
Definition relay (n : nat) (frame : Mat) : list Move :=
  VideoPost frame :: replicate n BusStep ++ replicate n DefoggerStep
    ++ replicate n BusStep ++ replicate n InferenceStep ++ replicate n BusStep.
End WithTransforms.
End WithMat.
Arguments State : clear implicits.
Arguments Move : clear implicits.
End Wiring.

(** ** [VideoProcessor::processEvents] (video_processor.cpp lines 15-37) *)

Module Video.

(** [(int)x] for a [double]: truncation toward zero when the truncated
    value fits a 32-bit [int].  Otherwise (NaN, infinities, a value beyond
    the range of [int]) C++ leaves the cast undefined: [None]. *)
Definition int_min : Z := - 2 ^ 31.
Definition int_max : Z := 2 ^ 31 - 1.

Definition to_int (x : F64.double) : option Z :=
  match x with
  | S754_zero _ => Some 0
  | S754_finite s m e =>
      let v := if (0 <=? e)%Z then Z.shiftl (Zpos m) e
               else Z.shiftr (Zpos m) (- e) in
      let r := if s then - v else v in
      if ((int_min <=? r) && (r <=? int_max))%Z then Some r else None
  | _ => None
  end.

(** The argument of [sleep_for]: [(int)(1000 / fps)] milliseconds, where
    the cast is defined. *)
Definition sleep_ms (fps : F64.double) : option Z :=
  to_int (F64.div (F64.of_Z 1000) fps).

Definition open_error_msg : string := "Error: Could not open video file.".

Section WithMat.
Context {Mat W : Type}.

(** What the worker does besides posting. *)
Inductive Obs : Type :=
  | CerrLine (msg : string)       (* line 18 *)
  | SeekToStart                   (* line 28: capture.set(CAP_PROP_POS_FRAMES, 0) *)
  | SleepMs (ms : Z)              (* line 33 *)
  | ReleaseCapture.               (* line 36 *)

Inductive VideoPc : Type :=
  | VOpen                         (* lines 16-22 *)
  | VWhile                        (* line 25: while (running.load()) *)
  | VRead                         (* line 26: capture.read(frame)    *)
  | VPost (frame : Mat)           (* lines 32-34 *)
  | VReturned
  | VUndefined.                   (* line 33: (int)(1000 / fps) is no int *)

(** The worker with what it shares and what it will be given: [reads] are
    the results the coming calls of [capture.read] deliver, [None] for a
    call that returns [false]. *)
Record State : Type := mkState {
  proc : Processor.IProcessor Mat;
  disp : Dispatcher.EventDispatcher Mat W;
  pc : VideoPc;
  reads : list (option Mat);
  trace : list Obs
}.

(** One step; [isOpened] and [fps] are what the capture reports. *)
Definition processEvents_step (isOpened : bool) (fps : F64.double)
    (v : State) : State :=
  match pc v with
  | VOpen =>
      if negb isOpened
      then mkState (proc v) (disp v) VReturned (reads v)
                   (trace v ++ [CerrLine open_error_msg])
      else mkState (proc v) (disp v) VWhile (reads v) (trace v)
  | VWhile =>
      if Processor.running (proc v)
      then mkState (proc v) (disp v) VRead (reads v) (trace v)
      else mkState (proc v) (disp v) VReturned (reads v)
                   (trace v ++ [ReleaseCapture])
  | VRead =>
      match reads v with
      | [] => v
      | None :: rest =>
          mkState (proc v) (disp v) VWhile rest (trace v ++ [SeekToStart])
      | Some frame :: rest =>
          mkState (proc v) (disp v) (VPost frame) rest (trace v)
      end
  | VPost frame =>
      let posted :=
        Dispatcher.postEvent (mkEvent FrameCaptureReady (frame, frame)) (disp v) in
      match sleep_ms fps with
      | Some ms =>
          mkState (proc v) posted VWhile (reads v) (trace v ++ [SleepMs ms])
      | None => mkState (proc v) posted VUndefined (reads v) (trace v)
      end
  | VReturned => v
  | VUndefined => v
  end.

Fixpoint run (isOpened : bool) (fps : F64.double) (n : nat) (v : State) : State :=
  match n with
  | O => v
  | S n' => run isOpened fps n' (processEvents_step isOpened fps v)
  end.

(** The steps the loop takes over the read results [rs]: three for a
    frame, two for a failed read. *)
Fixpoint steps_for (rs : list (option Mat)) : nat :=
  match rs with
  | [] => O
  | Some _ :: rest => 3 + steps_for rest
  | None :: rest => 2 + steps_for rest
  end.

(** The frames among the read results, and the event posted for a frame. *)
Fixpoint frames_of (rs : list (option Mat)) : list Mat :=
  match rs with
  | [] => []
  | Some f :: rest => f :: frames_of rest
  | None :: rest => frames_of rest
  end.

Definition capture_event (frame : Mat) : Event Mat :=
  mkEvent FrameCaptureReady (frame, frame).

(** What a read leaves in the trace, [ms] being the sleep after a post. *)
Definition obs_of_read (ms : Z) (r : option Mat) : Obs :=
  match r with
  | Some _ => SleepMs ms
  | None => SeekToStart
  end.
End WithMat.
Arguments State : clear implicits.
Arguments VideoPc : clear implicits.
End Video.

(** ** [GUIRenderer::processEvents] and [renderFrame]
       (gui_renderer.cpp lines 15-139) *)

Module Gui.

(** What [renderFrame] asks of a frame: [frame.empty()], [frame.channels()]. *)
Class FrameInfo (Mat : Type) : Type := {
  mat_empty : Mat -> bool;
  mat_channels : Mat -> Z
}.

Inductive Slot : Type := Original | Processed.

Definition init_error_msg : string := "Failed to initialize GLFW".
Definition window_error_msg : string := "Failed to create GLFW window".
Definition unsupported_msg (slot : Slot) : string :=
  match slot with
  | Original => "Unsupported image format for orjinal video frame"
  | Processed => "Unsupported image format for processed video frame"
  end.

(** What the environment answers when asked: [glfwInit()],
    [glfwCreateWindow(..) != nullptr], [glfwWindowShouldClose(window)]. *)
Record Env : Type := mkEnv {
  glfwInit_ok : bool;
  window_ok : bool;
  shouldClose : bool
}.

Section WithMat.
Context {Mat W : Type} `{FrameInfo Mat}.

(** What the worker does that can be seen: lines to [std::cerr], texture
    creation, and the upload and display of a frame ([converted] when it
    went through [cvtColor]).  The other GL and ImGui calls of the loop
    are not recorded. *)
Inductive Obs : Type :=
  | CerrLine (msg : string)
  | GenTexture (slot : Slot)
  | ShowFrame (slot : Slot) (frame : Mat) (converted : bool).

(** [renderFrame(frame, texture, errorMessage)], lines 112-139.
    [generated] says whether [texture] is non-zero; the result holds what
    was done and the new value of that flag. *)
Definition renderFrame (slot : Slot) (frame : Mat) (generated : bool)
    : list Obs * bool :=
  if negb (mat_empty frame) then
    if (mat_channels frame =? 3)%Z then
      ((if generated then [] else [GenTexture slot])
         ++ [ShowFrame slot frame true], true)
    else if (mat_channels frame =? 4)%Z then
      ((if generated then [] else [GenTexture slot])
         ++ [ShowFrame slot frame false], true)
    else ([CerrLine (unsupported_msg slot)], generated)
  else ([], generated).

Inductive GuiPc : Type :=
  | GInit                          (* line 17 *)
  | GCreateWindow                  (* lines 27-32 *)
  | GWhile                         (* line 46 *)
  | GWait                          (* line 61 *)
  | GRunningCheck                  (* lines 63-67 *)
  | GRender (frames : Mat * Mat)   (* lines 69-87 *)
  | GShutdown                      (* line 91 *)
  | GReturned
  | GUndefined.                    (* frameQueue.front() on an empty queue *)

Record State : Type := mkState {
  proc : Processor.IProcessor Mat;
  disp : Dispatcher.EventDispatcher Mat W;
  pc : GuiPc;
  texture1 : bool;
  texture2 : bool;
  trace : list Obs
}.

(** One step of the render worker, given what the environment answers
    at this moment. *)
Definition processEvents_step (env : Env) (g : State) : State :=
  let p := proc g in
  match pc g with
  | GInit =>
      if negb (glfwInit_ok env)
      then mkState p (disp g) GReturned (texture1 g) (texture2 g)
                   (trace g ++ [CerrLine init_error_msg])
      else mkState p (disp g) GCreateWindow (texture1 g) (texture2 g) (trace g)
  | GCreateWindow =>
      if negb (window_ok env)
      then mkState p (disp g) GReturned (texture1 g) (texture2 g)
                   (trace g ++ [CerrLine window_error_msg])
      else mkState p (disp g) GWhile (texture1 g) (texture2 g) (trace g)
  | GWhile =>
      if Processor.running p && negb (shouldClose env)
      then mkState p (disp g) GWait (texture1 g) (texture2 g) (trace g)
      else mkState p (disp g) GShutdown (texture1 g) (texture2 g) (trace g)
  | GWait =>
      if Processor.workerAsleep p then g
      else if Processor.wait_pred p
           then mkState p (disp g) GRunningCheck (texture1 g) (texture2 g) (trace g)
           else mkState (Processor.mkProcessor (Processor.running p)
                           (Processor.frameQueue p) true)
                        (disp g) GWait (texture1 g) (texture2 g) (trace g)
  | GRunningCheck =>
      if negb (Processor.running p)
      then mkState p (disp g) GShutdown (texture1 g) (texture2 g) (trace g)
      else match Processor.frameQueue p with
           | frames :: q =>
               mkState (Processor.mkProcessor (Processor.running p) q
                          (Processor.workerAsleep p))
                       (disp g) (GRender frames) (texture1 g) (texture2 g) (trace g)
           | [] => mkState p (disp g) GUndefined (texture1 g) (texture2 g) (trace g)
           end
  | GRender frames =>
      let '(o1, t1) := renderFrame Original (fst frames) (texture1 g) in
      let '(o2, t2) := renderFrame Processed (snd frames) (texture2 g) in
      mkState p (disp g) GWhile t1 t2 (trace g ++ o1 ++ o2)
  | GShutdown =>
      mkState p (Dispatcher.shutdownEventloop (disp g)) GReturned
              (texture1 g) (texture2 g) (trace g)
  | GReturned => g
  | GUndefined => g
  end.

(** The worker run against the successive answers [envs]. *)
Definition run (envs : list Env) (g : State) : State :=
  fold_left (fun g env => processEvents_step env g) envs g.

(** [stop()] seen from the worker's state. *)
Definition stopped (g : State) : State :=
  mkState (Processor.stop (proc g)) (disp g) (pc g) (texture1 g) (texture2 g)
          (trace g).

(** The worker is inside its [while] loop. *)
Definition in_loop (g : State) : Prop :=
  match pc g with
  | GWhile | GWait | GRunningCheck | GRender _ => True
  | _ => False
  end.

(** How often a texture was created for a slot. *)
Fixpoint generations (slot : Slot) (o : list Obs) : nat :=
  match o with
  | [] => O
  | GenTexture Original :: rest =>
      match slot with
      | Original => S (generations slot rest)
      | Processed => generations slot rest
      end
  | GenTexture Processed :: rest =>
      match slot with
      | Original => generations slot rest
      | Processed => S (generations slot rest)
      end
  | _ :: rest => generations slot rest
  end.
End WithMat.
Arguments State : clear implicits.
Arguments Obs : clear implicits.
Arguments GuiPc : clear implicits.
End Gui.

(** ** The command line, seen from outside *)

Module Args.

(** An argument split at its first colon, as lines 31-34 of
    commandline_args.cpp do it; [None] when it has no colon. *)
Definition split_arg (arg : string) : option (string * string) :=
  match Cli.find_colon arg with
  | Some pos =>
      Some (String.substring 0 pos arg,
            String.substring (pos + 1) (String.length arg - (pos + 1)) arg)
  | None => None
  end.

(** The value the arguments [args], scanned in order, leave for [key]:
    that of the last argument whose part before the colon is [key]. *)
Fixpoint last_value (args : list string) (key : string) : option string :=
  match args with
  | [] => None
  | a :: rest =>
      match last_value rest key with
      | Some v => Some v
      | None =>
          match split_arg a with
          | Some (k, v) => if decide (k = key) then Some v else None
          | None => None
          end
      end
  end.
End Args.

(** ** Class names and colours (inference_engine.cpp, lines 93-130) *)

Module Labels.

(** A [std::istringstream]: what is left to read, and its [eofbit]. *)
Record Stream : Type := mkStream { unread : string; eofbit : bool }.

Definition istringstream (s : string) : Stream := mkStream s false.

Definition newline : ascii := ascii_of_nat 10.

(** The characters of [s] in front of the first [delim], and what follows
    that [delim]; [None] for the second when [s] has no [delim]. *)
Fixpoint until (delim : ascii) (s : string) : string * option string :=
  match s with
  | EmptyString => (EmptyString, None)
  | String c s' =>
      if Ascii.eqb c delim then (EmptyString, Some s')
      else let '(token, after) := until delim s' in (String c token, after)
  end.

(** [std::getline(input, token, delim)]: fails on a stream at its end;
    otherwise reads up to the delimiter, which it removes, or up to the
    end of the stream, which sets [eofbit]. *)
Definition getline (delim : ascii) (input : Stream) : option (string * Stream) :=
  if eofbit input then None
  else match unread input with
       | EmptyString => None
       | _ =>
           match until delim (unread input) with
           | (token, Some after) => Some (token, mkStream after false)
           | (token, None) => Some (token, mkStream EmptyString true)
           end
       end.

Inductive Obs : Type :=
  | CerrLine (s : string).

Definition open_error_msg (filePath : string) : string :=
  ("Error opening file: " ++ filePath)%string.

Section WithExtraction.
(** [std::istringstream(token) >> n] for an [int n]: the value read, or
    [None] when the extraction fails. *)
Variable read_int : string -> option Z.

(** The condition of line 106 and the colour of line 109. *)
Definition parse_color_line (line : string) : option Scalar :=
  '(token1, iss1) ← getline "," (istringstream line);
  r ← read_int token1;
  '(token2, iss2) ← getline "," iss1;
  g ← read_int token2;
  '(token3, _) ← getline newline iss2;
  b ← read_int token3;
  Some (mkScalar b g r).

(** The body of the [while] of lines 102-111. *)
Definition add_color (colors : list Scalar) (line : string) : list Scalar :=
  match parse_color_line line with
  | Some c => colors ++ [c]
  | None => colors
  end.

(** [parseRgbColors]; [file] holds the lines [std::getline(file, line)]
    yields, [None] for a file that cannot be opened. *)
Definition parseRgbColors (filePath : string) (file : option (list string))
    (colors : list Scalar) : list Obs * list Scalar :=
  match file with
  | None => ([CerrLine (open_error_msg filePath)], colors)
  | Some lines => ([], fold_left add_color lines colors)
  end.

(** [parseClassName]. *)
Definition parseClassName (filePath : string) (file : option (list string))
    (classes : list string) : list Obs * list string :=
  match file with
  | None => ([CerrLine (open_error_msg filePath)], classes)
  | Some lines => ([], fold_left (fun cs line => cs ++ [line]) lines classes)
  end.

(** The constructor, lines 6-19: both lists start empty. *)
Definition InferenceEngine (classesPath colorsPath : string)
    (classesFile colorsFile : option (list string))
    (confidenceThreshold : F32.float) : list Obs * Detect.Engine :=
  let '(o1, classes) := parseClassName classesPath classesFile [] in
  let '(o2, colors) := parseRgbColors colorsPath colorsFile [] in
  (o1 ++ o2, Detect.mkEngine confidenceThreshold classes colors).
End WithExtraction.

(** Whether [c] occurs in [s]. *)
Fixpoint occurs (c : ascii) (s : string) : bool :=
  match s with
  | EmptyString => false
  | String c' s' => Ascii.eqb c' c || occurs c s'
  end.

(** An extraction to run the model on: an optional sign and decimal
    digits, at least one. *)
Definition read_decimal (s : string) : option Z :=
  let '(neg, s1) :=
    match s with
    | String c s' =>
        if Ascii.eqb c "-" then (true, s')
        else if Ascii.eqb c "+" then (false, s') else (false, s)
    | EmptyString => (false, s)
    end in
  let '(v, n, _) := Cli.read_digits s1 0 O in
  if (n =? 0)%nat then None else Some (if neg then - v else v).
End Labels.

(** ** The waits and the dispatch, one step finer

    [queueCondition.wait(lock, pred)] is [while (!pred()) wait(lock);]:
    the thread tests the predicate holding the mutex and only then blocks.
    [postEvent] and [handleEvent] change the queue under that mutex, so
    against them the test and the blocking are one step, which is how the
    loops above have it.  [IProcessor::stop()] and [shutdownEventloop]
    take no mutex: they can run between the test and the blocking, and
    between the lookup of a handler and its call.  The machines below add
    the first point to the loops of the workers and the second to the loop
    of the bus, and are otherwise the loops above. *)

Module Unlocked.

Section Workers.
Context {Mat W : Type}.

(** A worker of [Processor], the bus it posts to, and the mark
    [committed]: it has found the wait predicate false and has not yet
    blocked. *)
Record Worker : Type := mkWorker {
  stage : Processor.Stage Mat;
  bus : Dispatcher.EventDispatcher Mat W;
  committed : bool
}.

(** One step of a worker whose loop is [step].  A committed worker blocks,
    whatever was stored or notified since its test; a notify that found
    nobody blocked is gone.  As in the loops above, a blocked worker wakes
    on a notify only: there are no spurious wake-ups. *)
Definition worker_step
    (step : Processor.Stage Mat * Dispatcher.EventDispatcher Mat W ->
            Processor.Stage Mat * Dispatcher.EventDispatcher Mat W)
    (x : Worker) : Worker :=
  let p := Processor.proc (stage x) in
  let next := step (stage x, bus x) in
  if committed x then
    mkWorker (Processor.mkStage
                (Processor.mkProcessor (Processor.running p)
                                       (Processor.frameQueue p) true)
                (Processor.wpc (stage x)))
             (bus x) false
  else
    match Processor.wpc (stage x) with
    | Processor.WWait =>
        if Processor.workerAsleep p || Processor.wait_pred p
        then mkWorker (fst next) (snd next) false
        else mkWorker (stage x) (bus x) true
    | _ => mkWorker (fst next) (snd next) false
    end.

Fixpoint worker_run
    (step : Processor.Stage Mat * Dispatcher.EventDispatcher Mat W ->
            Processor.Stage Mat * Dispatcher.EventDispatcher Mat W)
    (n : nat) (x : Worker) : Worker :=
  match n with
  | O => x
  | S n' => worker_run step n' (worker_step step x)
  end.

(** [stop()] called by another thread, up to its [join]. *)
Definition worker_stop (x : Worker) : Worker :=
  mkWorker (Processor.mkStage (Processor.stop (Processor.proc (stage x)))
                              (Processor.wpc (stage x)))
           (bus x) (committed x).

(** The same for the render worker. *)
Record Renderer : Type := mkRenderer {
  gui : Gui.State Mat W;
  gui_committed : bool
}.

Definition renderer_step `{Gui.FrameInfo Mat} (env : Gui.Env) (x : Renderer)
    : Renderer :=
  let g := gui x in
  let p := Gui.proc g in
  if gui_committed x then
    mkRenderer
      (Gui.mkState (Processor.mkProcessor (Processor.running p)
                                          (Processor.frameQueue p) true)
                   (Gui.disp g) (Gui.pc g) (Gui.texture1 g) (Gui.texture2 g)
                   (Gui.trace g))
      false
  else
    match Gui.pc g with
    | Gui.GWait =>
        if Processor.workerAsleep p || Processor.wait_pred p
        then mkRenderer (Gui.processEvents_step env g) false
        else mkRenderer g true
    | _ => mkRenderer (Gui.processEvents_step env g) false
    end.

Definition renderer_run `{Gui.FrameInfo Mat} (envs : list Gui.Env) (x : Renderer)
    : Renderer :=
  fold_left (fun x env => renderer_step env x) envs x.

Definition renderer_stop (x : Renderer) : Renderer :=
  mkRenderer (Gui.stopped (gui x)) (gui_committed x).

(** What the loop thread of the bus holds from the [find] of line 36 of
    event_dispatcher.cpp until the call of line 38 has returned: the
    iterator [it].  Each of [find], the call and [clear()] is one step. *)
Inductive Lookup : Type :=
  | NotYet                                  (* line 36 not reached         *)
  | Found (h : Dispatcher.Handler Mat W)    (* [it] is at the entry of [h] *)
  | Dangling.                               (* [clear()] destroyed that entry *)

Record Loop : Type := mkLoop {
  loop_bus : Dispatcher.Bus Mat W;
  it : Lookup
}.

(** One step of [startEventloop], with the lookup and the call apart.  A
    call through an iterator that [clear()] has invalidated is undefined:
    the model stays where it is. *)
Definition loop_step (x : Loop) : Loop :=
  let b := loop_bus x in
  let d := Dispatcher.disp b in
  match Dispatcher.pc b, it x with
  | Dispatcher.AtDispatch e, NotYet =>                        (* line 36 *)
      match Dispatcher.find_handler (Dispatcher.handlerContainer d) (type e) with
      | Some h => mkLoop b (Found h)
      | None =>                                               (* line 40 *)
          mkLoop (Dispatcher.mkBus d Dispatcher.AtDrain (Dispatcher.world b)
                    (Dispatcher.out b
                       ++ [Dispatcher.Cerr Dispatcher.no_handler_msg]))
                 NotYet
      end
  | Dispatcher.AtDispatch e, Found h =>                       (* line 38 *)
      mkLoop (Dispatcher.mkBus d Dispatcher.AtDrain (h e (Dispatcher.world b))
                (Dispatcher.out b ++ [Dispatcher.Invoked (type e) e]))
             NotYet
  | Dispatcher.AtDispatch e, Dangling => x
  | _, l => mkLoop (Dispatcher.loop_step b) l
  end.

Fixpoint loop_run (n : nat) (x : Loop) : Loop :=
  match n with
  | O => x
  | S n' => loop_run n' (loop_step x)
  end.

(** [shutdownEventloop] called by another thread: an iterator the loop
    thread holds is invalidated by [handlerContainer.clear()]. *)
Definition shutdown (x : Loop) : Loop :=
  mkLoop (Dispatcher.on_disp Dispatcher.shutdownEventloop (loop_bus x))
         (match it x with
          | Found _ => Dangling
          | l => l
          end).

Definition act (a : Dispatcher.Action Mat) (x : Loop) : Loop :=
  match a with
  | Dispatcher.Post e =>
      mkLoop (Dispatcher.on_disp (Dispatcher.postEvent e) (loop_bus x)) (it x)
  | Dispatcher.Tick => loop_step x
  end.

Definition run_schedule (sched : list (Dispatcher.Action Mat)) (x : Loop) : Loop :=
  fold_left (fun x a => act a x) sched x.
End Workers.
Arguments Worker : clear implicits.
Arguments Renderer : clear implicits.
Arguments Loop : clear implicits.
Arguments Lookup : clear implicits.
End Unlocked.

(** ** More concrete states and inputs *)

Module Cases.

(** A frame of [Sample] is never empty and has three channels. *)
#[global] Instance Frame_FrameInfo : Gui.FrameInfo Sample.Frame := {
  mat_empty := fun _ => false;
  mat_channels := fun _ => 3
}.

Definition handlers : gmap EventType (Dispatcher.Handler Sample.Frame
                                        (Processor.Pipeline Sample.Frame)) :=
  Dispatcher.handlerContainer
    (Dispatcher.register_all Processor.main_registrations Dispatcher.new_dispatcher).

(** The bus thread at the head of its loop with two events queued. *)
Definition bus_at_head : Sample.Bus :=
  Dispatcher.mkBus
    (Dispatcher.mkDispatcher true [Sample.capture 1; Sample.capture 2] false handlers)
    Dispatcher.AtWhile Processor.new_pipeline [].

(** The bus thread with an event taken off the queue and its handler not
    yet looked up, one more event queued; and what happens next. *)
Definition loop_before_lookup
    : Unlocked.Loop Sample.Frame (Processor.Pipeline Sample.Frame) :=
  Unlocked.mkLoop
    (Dispatcher.mkBus
       (Dispatcher.mkDispatcher true [Sample.capture 2] false handlers)
       (Dispatcher.AtDispatch (Sample.capture 1)) Processor.new_pipeline [])
    Unlocked.NotYet.

Definition schedule_after_shutdown : list (Dispatcher.Action Sample.Frame) :=
  [ Dispatcher.Tick; Dispatcher.Post (Sample.capture 3); Dispatcher.Tick;
    Dispatcher.Tick; Dispatcher.Tick; Dispatcher.Tick ].

(** A worker in the middle of an iteration, one more payload queued; and
    a worker that has found its queue empty and is about to block. *)
Definition worker_in_body : Unlocked.Worker Sample.Frame unit :=
  Unlocked.mkWorker
    (Processor.mkStage
       (Processor.mkProcessor true [(Sample.frame 2, Sample.frame 2)] false)
       (Processor.WBody (Sample.frame 1, Sample.frame 1)))
    Sample.empty_bus false.

Definition worker_committed : Unlocked.Worker Sample.Frame unit :=
  Unlocked.mkWorker
    (Processor.mkStage (Processor.mkProcessor true [] false) Processor.WWait)
    Sample.empty_bus true.

(** The video source: a capture that gives a frame, then an empty frame
    (the end of the file), then a frame; and a source that was stopped
    between the loop test and [capture.read]. *)
Definition fps_25 : F64.double := F64.of_Z 25.

Definition video_reads : list (option Sample.Frame) :=
  [Some (Sample.frame 1); None; Some (Sample.frame 2)].

Definition video_running : Video.State Sample.Frame unit :=
  Video.mkState (Processor.mkProcessor true [] false) Sample.empty_bus
                Video.VWhile video_reads [].

Definition video_stopped_before_read : Video.State Sample.Frame unit :=
  Video.mkState (Processor.mkProcessor false [] false) Sample.empty_bus
                Video.VRead [Some (Sample.frame 4); Some (Sample.frame 5)] [].

(** The render stage: at the head of its loop with two payloads, asleep
    on an empty queue, and before [glfwInit]. *)
Definition gui_at_head : Gui.State Sample.Frame unit :=
  Gui.mkState
    (Processor.mkProcessor true
       [(Sample.frame 1, Sample.frame 1); (Sample.frame 2, Sample.frame 2)] false)
    Sample.empty_bus Gui.GWhile false false [].

Definition gui_asleep : Gui.State Sample.Frame unit :=
  Gui.mkState (Processor.mkProcessor true [] true) Sample.empty_bus
              Gui.GWait false false [].

Definition gui_fresh : Gui.State Sample.Frame unit :=
  Gui.mkState (Processor.mkProcessor true [] false) Sample.empty_bus
              Gui.GInit false false [].

Definition env_ok : Gui.Env := Gui.mkEnv true true false.
Definition env_close : Gui.Env := Gui.mkEnv true true true.
Definition env_no_glfw : Gui.Env := Gui.mkEnv false true false.

(** Command lines: one without [--modelPath], one whose two paths are
    both missing from [Sample.fs]. *)
Definition argv_no_model : list string :=
  ["CustomEventSystem"; "--videoPath:/data/road.mp4"]%string.
Definition argv_bad_paths : list string :=
  ["CustomEventSystem"; "--modelPath:/opt/missing";
   "--videoPath:/data/missing.mp4"]%string.
End Cases.

(* ===================================================================== *)
(** * Part II: properties                                                 *)
(* ===================================================================== *)

(** ** The event loop of the bus *)

Section BusFacts.
Context {Mat W : Type}.
Import Dispatcher.

Abbreviation Bus := (Dispatcher.Bus Mat W).
Abbreviation Handlers := (gmap EventType (Dispatcher.Handler Mat W)).

Implicit Types (b : Bus) (hs : Handlers) (q P : list (Event Mat)) (w : W)
               (regs : list (EventType * Dispatcher.Handler Mat W)).

Lemma loop_run_add (n m : nat) b :
  loop_run (n + m) b = loop_run m (loop_run n b).
Proof.
  revert b. induction n as [|n IH]; intros b; simpl.
  - reflexivity.
  - apply IH.
Qed.

(** A state the loop cannot leave on its own. *)
Lemma loop_run_fixed (n : nat) b : loop_step b = b -> loop_run n b = b.
Proof.
  intros Hfix. induction n as [|n IH]; simpl.
  - reflexivity.
  - rewrite Hfix. exact IH.
Qed.

Lemma drain_step_cons (r a : bool) hs e q w (o : list (Obs Mat)) :
  loop_step (mkBus (mkDispatcher r (e :: q) a hs) AtDrain w o)
  = mkBus (mkDispatcher r q a hs) (AtDispatch e) w o.
Proof. reflexivity. Qed.

Lemma dispatch_step (d : Dispatcher.EventDispatcher Mat W) e w (o : list (Obs Mat)) :
  loop_step (mkBus d (AtDispatch e) w o)
  = mkBus d AtDrain (dispatch_world (handlerContainer d) w e)
          (o ++ [dispatch_obs (handlerContainer d) e]).
Proof.
  unfold loop_step, dispatch_world, dispatch_obs; cbn.
  destruct (find_handler (handlerContainer d) (type e)); reflexivity.
Qed.

(** The inner [while] empties the queue front to back, two steps per
    event, whatever the flags are. *)
Lemma drain_all q :
  forall (r a : bool) hs w (o : list (Obs Mat)),
    loop_run (2 * length q)
             (mkBus (mkDispatcher r q a hs) AtDrain w o)
    = mkBus (mkDispatcher r [] a hs) AtDrain
            (fold_left (dispatch_world hs) q w)
            (o ++ map (dispatch_obs hs) q).
Proof.
  induction q as [|e q IH]; intros r a hs w o.
  - simpl. rewrite app_nil_r. reflexivity.
  - replace (2 * length (e :: q))%nat with (S (S (2 * length q))) by (simpl; lia).
    cbn [loop_run]. rewrite drain_step_cons, dispatch_step. cbn [handlerContainer].
    rewrite IH. cbn [fold_left map]. rewrite <- app_assoc. reflexivity.
Qed.

(** When every event has a handler, the trace of the drain is one call
    per event. *)
Lemma dispatch_obs_registered hs q :
  Forall (fun e => is_Some (hs !! type e)) q ->
  map (dispatch_obs hs) q = map (fun e => Invoked (type e) e) q.
Proof.
  induction 1 as [|e q [h Hh] _ IH]; simpl.
  - reflexivity.
  - unfold dispatch_obs at 1, find_handler. rewrite Hh, IH. reflexivity.
Qed.

Lemma register_all_flags regs (d : Dispatcher.EventDispatcher Mat W) :
  running (register_all regs d) = running d
  /\ eventQueue (register_all regs d) = eventQueue d
  /\ loopAsleep (register_all regs d) = loopAsleep d.
Proof.
  revert d. induction regs as [|r regs IH]; intros d; simpl.
  - auto.
  - destruct (IH (registerHandler (fst r) (snd r) d)) as (H1 & H2 & H3).
    unfold register_all in *. rewrite H1, H2, H3. auto.
Qed.

Lemma bus_inv_boot regs w0 :
  bus_inv (handlerContainer (register_all regs new_dispatcher)) w0 []
          (boot regs w0).
Proof.
  destruct (register_all_flags regs new_dispatcher) as (H1 & H2 & H3).
  exists []. unfold boot, in_flight; cbn.
  rewrite H1, H2, H3. cbn.
  repeat split; try reflexivity; try discriminate.
Qed.

Ltac bus_inv_close :=
  cbn in *; repeat split; cbn in *; auto; try congruence;
  try match goal with
      | Ha : ?x = true -> _ /\ _ |- _ =>
          let Hx := fresh in
          assert (Hx : x = true) by (assumption || reflexivity);
          destruct (Ha Hx) as [? ?]; congruence
      end.

Lemma bus_inv_post hs w0 P b e :
  bus_inv hs w0 P b -> bus_inv hs w0 (P ++ [e]) (on_disp (postEvent e) b).
Proof.
  intros (done & HP & Ho & Hw & Hr & Hh & Ha & Hpc).
  exists done. unfold on_disp, postEvent, notify, in_flight in *; cbn.
  rewrite HP, <- !app_assoc. bus_inv_close.
Qed.

Lemma bus_inv_tick hs w0 P b :
  bus_inv hs w0 P b -> bus_inv hs w0 P (loop_step b).
Proof.
  intros (done & HP & Ho & Hw & Hr & Hh & Ha & Hpc).
  destruct b as [[r q a hs'] p w o]; cbn in *. subst r hs'.
  destruct p as [| | | |e|].
  - exists done. unfold in_flight in *; cbn in *. bus_inv_close.
  - unfold loop_step; cbn. destruct a.
    + exists done. bus_inv_close.
    + unfold wait_pred, queue_empty; cbn. destruct q as [|e q]; cbn;
        exists done; unfold in_flight in *; cbn in *; bus_inv_close.
  - exists done. unfold in_flight in *; cbn in *. bus_inv_close.
  - destruct q as [|e q]; exists done; unfold in_flight in *; cbn in *;
      bus_inv_close.
  - rewrite dispatch_step. unfold in_flight in *; cbn in *.
    exists (done ++ [e]).
    rewrite map_app, fold_left_app, <- Ho, <- Hw, HP, <- app_assoc. cbn.
    bus_inv_close.
  - contradiction.
Qed.

Lemma posted_app (s1 s2 : list (Action Mat)) :
  posted (s1 ++ s2) = posted s1 ++ posted s2.
Proof.
  induction s1 as [|[e|] s1 IH]; simpl; [reflexivity | f_equal; exact IH | exact IH].
Qed.

Lemma bus_inv_schedule hs w0 (sched : list (Action Mat)) :
  forall P b, bus_inv hs w0 P b ->
              bus_inv hs w0 (P ++ posted sched) (run_schedule sched b).
Proof.
  induction sched as [|[e|] sched IH]; intros P b HI; cbn.
  - rewrite app_nil_r. exact HI.
  - replace (P ++ e :: posted sched) with ((P ++ [e]) ++ posted sched)
      by (rewrite <- app_assoc; reflexivity).
    apply IH. apply bus_inv_post. exact HI.
  - apply IH. apply bus_inv_tick. exact HI.
Qed.
Lemma quiescent_fixed hs w0 P : loop_step (quiescent hs w0 P) = quiescent hs w0 P.
Proof. reflexivity. Qed.

Lemma finish_from_drain q hs w (o : list (Obs Mat)) :
  loop_run (2 * length q + 3)
           (mkBus (mkDispatcher true q false hs) AtDrain w o)
  = mkBus (mkDispatcher true [] true hs) AtWait
          (fold_left (dispatch_world hs) q w) (o ++ map (dispatch_obs hs) q).
Proof.
  rewrite loop_run_add, drain_all. reflexivity.
Qed.

(** Left alone, the loop of a running bus reaches the quiescent state. *)
Lemma bus_inv_quiesce hs w0 P b :
  bus_inv hs w0 P b -> exists n, loop_run n b = quiescent hs w0 P.
Proof.
  intros (done & HP & Ho & Hw & Hr & Hh & Ha & Hpc).
  destruct b as [[r q a hs'] p w o]; cbn in *. subst r hs' o w.
  unfold quiescent. rewrite HP, !fold_left_app, !map_app.
  assert (Hawake : p <> AtWait -> a = false).
  { intros Hp. destruct a; [|reflexivity].
    destruct (Ha eq_refl) as [? _]. contradiction. }
  destruct p as [| | | |e|]; unfold in_flight; cbn.
  - rewrite Hawake by discriminate. destruct q as [|e q].
    + exists 2%nat. cbn. rewrite app_nil_r. reflexivity.
    + exists (3 + (2 * length (e :: q) + 3))%nat.
      rewrite loop_run_add. cbn [loop_run].
      change (loop_step (loop_step (loop_step ?x))) with
        (mkBus (mkDispatcher true (e :: q) false hs) AtDrain
               (fold_left (dispatch_world hs) done w0)
               (map (dispatch_obs hs) done)).
      apply finish_from_drain.
  - destruct a.
    + destruct (Ha eq_refl) as [_ ->]. exists 0%nat. cbn.
      rewrite app_nil_r. reflexivity.
    + destruct q as [|e q].
      * exists 1%nat. cbn. rewrite app_nil_r. reflexivity.
      * exists (2 + (2 * length (e :: q) + 3))%nat.
        rewrite loop_run_add. cbn [loop_run].
        change (loop_step (loop_step ?x)) with
          (mkBus (mkDispatcher true (e :: q) false hs) AtDrain
                 (fold_left (dispatch_world hs) done w0)
                 (map (dispatch_obs hs) done)).
        apply finish_from_drain.
  - rewrite Hawake by discriminate.
    exists (1 + (2 * length q + 3))%nat.
    rewrite loop_run_add. cbn [loop_run].
    change (loop_step ?x) with
      (mkBus (mkDispatcher true q false hs) AtDrain
             (fold_left (dispatch_world hs) done w0)
             (map (dispatch_obs hs) done)).
    apply finish_from_drain.
  - rewrite Hawake by discriminate.
    exists (2 * length q + 3)%nat. apply finish_from_drain.
  - rewrite Hawake by discriminate.
    exists (1 + (2 * length q + 3))%nat.
    rewrite loop_run_add. cbn [loop_run]. rewrite dispatch_step.
    rewrite finish_from_drain. cbn. rewrite <- app_assoc. reflexivity.
  - contradiction.
Qed.

(** C1.  Events posted to a running bus, in any interleaving with the steps
    of its loop, and all of types that have a handler: once the loop has
    run long enough it has called one handler per posted event, in the
    order of posting (so N calls for N events, none dropped, none
    reordered), the handlers' effects have been applied in that order, the
    queue is empty and the loop sleeps in [wait]. *)
Theorem C1_dispatch_fifo (regs : list (EventType * Dispatcher.Handler Mat W))
    w0 (sched : list (Action Mat)) :
  let hs := handlerContainer (register_all regs new_dispatcher) in
  Forall (fun e => is_Some (hs !! type e)) (posted sched) ->
  exists n, forall m, (n <= m)%nat ->
    let b := loop_run m (run_schedule sched (boot regs w0)) in
    out b = map (fun e => Invoked (type e) e) (posted sched)
    /\ length (out b) = length (posted sched)
    /\ world b = fold_left (dispatch_world hs) (posted sched) w0
    /\ eventQueue (disp b) = []
    /\ pc b = AtWait
    /\ loopAsleep (disp b) = true.
Proof.
  intros hs Hreg.
  pose proof (bus_inv_schedule hs w0 sched [] (boot regs w0)
                (bus_inv_boot regs w0)) as HI.
  cbn [app] in HI.
  destruct (bus_inv_quiesce _ _ _ _ HI) as [n Hn].
  exists n. intros m Hm.
  replace m with (n + (m - n))%nat by lia.
  rewrite loop_run_add, Hn.
  rewrite (loop_run_fixed _ _ (quiescent_fixed hs w0 (posted sched))).
  unfold quiescent; cbn.
  rewrite (dispatch_obs_registered hs _ Hreg).
  repeat split; auto. apply length_map.
Qed.

(** C6.  The loop is draining and the event at the front has no handler:
    the loop writes the diagnostic, calls no handler for that event (the
    world is touched by the later events only), and goes on to dispatch
    every later event of the queue; it is then still inside the drain loop,
    neither blocked nor returned. *)
Theorem C6_unhandled_event_is_skipped b (e : Event Mat) (rest : list (Event Mat)) :
  pc b = AtDrain ->
  eventQueue (disp b) = e :: rest ->
  handlerContainer (disp b) !! type e = None ->
  let hs := handlerContainer (disp b) in
  loop_step (loop_step b)
    = mkBus (mkDispatcher (running (disp b)) rest (loopAsleep (disp b)) hs)
            AtDrain (world b) (out b ++ [Cerr no_handler_msg])
  /\ loop_run (2 * length (e :: rest)) b
    = mkBus (mkDispatcher (running (disp b)) [] (loopAsleep (disp b)) hs)
            AtDrain
            (fold_left (dispatch_world hs) rest (world b))
            (out b ++ Cerr no_handler_msg :: map (dispatch_obs hs) rest).
Proof.
  intros Hpc Hq Hnone hs.
  destruct b as [[r q a hs'] p w o].
  cbn [pc disp eventQueue handlerContainer running loopAsleep world out] in *.
  subst p q hs.
  assert (Hw : dispatch_world hs' w e = w).
  { unfold dispatch_world, find_handler. rewrite Hnone. reflexivity. }
  assert (Ho : dispatch_obs hs' e = Cerr no_handler_msg)
    by (unfold dispatch_obs, find_handler; rewrite Hnone; reflexivity).
  split.
  - rewrite drain_step_cons, dispatch_step.
    cbn [handlerContainer]. rewrite Hw, Ho. reflexivity.
  - rewrite drain_all. cbn [fold_left map]. rewrite Hw, Ho. reflexivity.
Qed.

Lemma asleep_on_empty_state regs w0 :
  asleep_on_empty regs w0
  = mkBus (mkDispatcher true [] true
             (handlerContainer (register_all regs new_dispatcher)))
          AtWait w0 [].
Proof.
  unfold asleep_on_empty, boot.
  destruct (register_all_flags regs new_dispatcher) as (H1 & H2 & H3).
  destruct (register_all regs new_dispatcher) as [r q a hs]; cbn in *.
  subst. reflexivity.
Qed.

(** C2.  [shutdownEventloop] called while the loop sleeps on an empty
    queue: the flag is cleared and the table is emptied, but the condition
    variable is not signalled; the loop stays asleep in [wait] however many
    steps it is offered and never returns. *)
Theorem C2_shutdown_leaves_loop_asleep
    (regs : list (EventType * Dispatcher.Handler Mat W)) w0 (n : nat) :
  let b := on_disp shutdownEventloop (asleep_on_empty regs w0) in
  running (disp b) = false
  /\ handlerContainer (disp b) = ∅
  /\ loopAsleep (disp b) = true
  /\ loop_run n b = b
  /\ pc (loop_run n b) = AtWait.
Proof.
  rewrite asleep_on_empty_state. cbn.
  assert (Hfix : forall b : Bus,
             pc b = AtWait -> loopAsleep (disp b) = true -> loop_step b = b).
  { intros b Hp Ha. unfold loop_step. rewrite Hp, Ha. reflexivity. }
  repeat split; try reflexivity.
  - apply loop_run_fixed, Hfix; reflexivity.
  - rewrite loop_run_fixed by (apply Hfix; reflexivity). reflexivity.
Qed.

(** The sibling paths do wake the loop: after the destructor's
    [notify_all], or after a later [postEvent], the loop sees the cleared
    flag and returns. *)
Lemma destroy_wakes_loop regs w0 :
  pc (loop_run 2 (on_disp destroy (asleep_on_empty regs w0))) = Returned.
Proof. rewrite asleep_on_empty_state. reflexivity. Qed.

Lemma post_after_shutdown_wakes_loop regs w0 e :
  pc (loop_run 2 (on_disp (postEvent e)
                    (on_disp shutdownEventloop (asleep_on_empty regs w0))))
  = Returned.
Proof. rewrite asleep_on_empty_state. reflexivity. Qed.
End BusFacts.

(** ** Stages: [handleEvent] and the processing loop *)

Section StageFacts.
Context {Mat W : Type}.
Import Processor.

Implicit Types (p : IProcessor Mat) (s : Stage Mat) (e : Event Mat)
               (d : Dispatcher.EventDispatcher Mat W)
               (body : Mat * Mat -> Event Mat).

Lemma handleEvent_initial k e p :
  type e = InitialState -> handleEvent k e p = p.
Proof.
  intros He. unfold handleEvent. rewrite He.
  destruct (decide (InitialState = InitialState)) as [_|Hne].
  - reflexivity.
  - contradiction.
Qed.

Lemma handleEvent_initial_stage k e p :
  getAccessibleType k = InitialState -> handleEvent k e p = p.
Proof.
  intros Hk. unfold handleEvent.
  destruct (decide (type e = InitialState)) as [He|He].
  - reflexivity.
  - destruct (decide (type e = getAccessibleType k)) as [Hacc|Hacc].
    + rewrite Hk in Hacc. contradiction.
    + reflexivity.
Qed.

(** C9.  An [InitialState] event changes no stage's frame queue, whatever
    the class of the stage; and a stage whose accepted type is
    [InitialState], as [VideoProcessor]'s is, gets nothing enqueued by
    [handleEvent] for any event at all. *)
Theorem C9_initial_state_is_never_enqueued k e p :
  (type e = InitialState -> frameQueue (handleEvent k e p) = frameQueue p)
  /\ (getAccessibleType k = InitialState ->
      frameQueue (handleEvent k e p) = frameQueue p)
  /\ getAccessibleType VideoProcessor = InitialState
  /\ frameQueue (handleEvent VideoProcessor e p) = frameQueue p.
Proof.
  split; [|split; [|split]].
  - intros He. rewrite handleEvent_initial by exact He. reflexivity.
  - intros Hk. rewrite handleEvent_initial_stage by exact Hk. reflexivity.
  - reflexivity.
  - rewrite handleEvent_initial_stage by reflexivity. reflexivity.
Qed.

(** The two steps of an iteration that finds the stage running and a
    payload at the front of the queue. *)
Lemma Defogger_iteration_running (defog : Mat -> Mat) s d frames q :
  wpc s = WRunningCheck ->
  running (proc s) = true ->
  frameQueue (proc s) = frames :: q ->
  run_steps (Defogger_processEvents_step defog) 2 (s, d)
  = (mkStage (mkProcessor true q (workerAsleep (proc s))) WWhile,
     Dispatcher.postEvent (Defogger_output defog frames) d).
Proof.
  intros Hpc Hr Hq. destruct s as [[r fq a] pc0]; cbn in *. subst.
  reflexivity.
Qed.

Lemma InferenceEngine_iteration_running `{OpenCV Mat} (eng : Detect.Engine)
    (forward : Mat -> list Detect.DetMat) s d frames q :
  wpc s = WRunningCheck ->
  running (proc s) = true ->
  frameQueue (proc s) = frames :: q ->
  run_steps (InferenceEngine_processEvents_step eng forward) 2 (s, d)
  = (mkStage (mkProcessor true q (workerAsleep (proc s))) WWhile,
     Dispatcher.postEvent (InferenceEngine_output eng forward frames) d).
Proof.
  intros Hpc Hr Hq. destruct s as [[r fq a] pc0]; cbn in *. subst.
  unfold InferenceEngine_output.
  destruct (Detect.process_detections eng (forward (snd frames)) (snd frames))
    as [boxes second] eqn:Hdet.
  cbn. rewrite Hdet. reflexivity.
Qed.

(** C3, as the code has it.  In the haze-removal loop and in the detection
    loop, at the check that follows a wake-up, the loop returns exactly
    when the stage has been stopped, whether or not payloads are still
    queued, and then leaves queue and bus untouched.  When the stage is
    running and the queue is not empty, the iteration takes the oldest
    payload off the queue, transforms it and posts the result. *)
Theorem C3_exit_follows_running_flag `{OpenCV Mat} (defog : Mat -> Mat)
    (eng : Detect.Engine) (forward : Mat -> list Detect.DetMat) s d :
  wpc s = WRunningCheck ->
  exit_follows_running_flag (Defogger_processEvents_step defog)
                            (Defogger_output defog) s d
  /\ exit_follows_running_flag (InferenceEngine_processEvents_step eng forward)
                               (InferenceEngine_output eng forward) s d.
Proof.
  intros Hpc. split; (split; [|split]).
  - intros Hr. destruct s as [[r fq a] pc0]; cbn in *. subst. reflexivity.
  - destruct s as [[r fq a] pc0]; cbn in *. subst pc0.
    destruct r; cbn; [destruct fq; cbn; discriminate | reflexivity].
  - intros frames q Hr Hq. apply Defogger_iteration_running; assumption.
  - intros Hr. destruct s as [[r fq a] pc0]; cbn in *. subst. reflexivity.
  - destruct s as [[r fq a] pc0]; cbn in *. subst pc0.
    destruct r; cbn; [destruct fq; cbn; discriminate | reflexivity].
  - intros frames q Hr Hq. apply InferenceEngine_iteration_running; assumption.
Qed.

(** C10.  An iteration that takes a payload off the queue appends exactly
    one event to the bus queue: [FrameDefoggerReady] with the defogged
    frame in the haze-removal stage, [FrameDetectionReady] with the
    annotated frame in the detection stage, whatever the transform returns
    and however many detections pass. *)
Theorem C10_one_event_per_payload `{OpenCV Mat}
    (defog : Mat -> Mat) (eng : Detect.Engine)
    (forward : Mat -> list Detect.DetMat) s d frames q :
  wpc s = WRunningCheck ->
  running (proc s) = true ->
  frameQueue (proc s) = frames :: q ->
  let after_defog :=
    run_steps (Defogger_processEvents_step defog) 2 (s, d) in
  let after_detect :=
    run_steps (InferenceEngine_processEvents_step eng forward) 2 (s, d) in
  let annotated :=
    snd (Detect.process_detections eng (forward (snd frames)) (snd frames)) in
  Dispatcher.eventQueue (snd after_defog)
    = Dispatcher.eventQueue d
      ++ [mkEvent FrameDefoggerReady (fst frames, defog (snd frames))]
  /\ Dispatcher.eventQueue (snd after_detect)
    = Dispatcher.eventQueue d
      ++ [mkEvent FrameDetectionReady (fst frames, annotated)]
  /\ length (Dispatcher.eventQueue (snd after_defog))
     = S (length (Dispatcher.eventQueue d))
  /\ length (Dispatcher.eventQueue (snd after_detect))
     = S (length (Dispatcher.eventQueue d))
  /\ frameQueue (proc (fst after_defog)) = q
  /\ frameQueue (proc (fst after_detect)) = q.
Proof.
  intros Hpc Hr Hq after_defog after_detect annotated.
  subst after_defog after_detect.
  rewrite (Defogger_iteration_running defog s d frames q Hpc Hr Hq).
  rewrite (InferenceEngine_iteration_running eng forward s d frames q Hpc Hr Hq).
  cbn. rewrite !length_app. cbn.
  repeat split; try reflexivity; lia.
Qed.
End StageFacts.

(** C3, counterexample.  The worker of [Sample.stopped_with_pending] wakes with a
    payload in its queue, and returns within two steps: the payload is
    still queued, nothing was transformed, nothing was posted.  So the
    loop does leave with a non-empty queue. *)
Lemma C3_counterexample :
  let d0 : Dispatcher.EventDispatcher Sample.Frame unit :=
    Dispatcher.new_dispatcher in
  let step := Processor.Defogger_processEvents_step (W:=unit) Sample.defog in
  let woken := step (Sample.stopped_with_pending, d0) in
  Processor.wpc (fst woken) = Processor.WRunningCheck
  /\ Processor.frameQueue (Processor.proc (fst woken))
     = [(Sample.frame 7, Sample.frame 7)]
  /\ Processor.wpc (fst (step woken)) = Processor.WReturned
  /\ Processor.frameQueue (Processor.proc (fst (step woken)))
     = [(Sample.frame 7, Sample.frame 7)]
  /\ Dispatcher.eventQueue (snd (step woken)) = []
  /\ ~ Processor.exits_only_when_drained
         (Processor.Defogger_processEvents_step (W:=unit) Sample.defog)
         (Processor.Defogger_output Sample.defog).
Proof.
  cbn. repeat split; try reflexivity.
  intros Hclaim.
  destruct (Hclaim (fst (Processor.Defogger_processEvents_step (W:=unit)
                           Sample.defog
                           (Sample.stopped_with_pending, Dispatcher.new_dispatcher)))
                   Dispatcher.new_dispatcher eq_refl) as [Hexit _].
  destruct (Hexit eq_refl) as [_ Hq]. discriminate Hq.
Qed.

(** ** Detections and the confidence threshold *)

Section DetectFacts.
Context {Mat : Type} `{OpenCV Mat}.
Import Detect.

Lemma process_row_dropped eng acc row :
  passes (confidenceThreshold eng) row = false -> process_row eng acc row = acc.
Proof.
  intros Hp. unfold process_row. destruct acc as [boxes frame].
  rewrite Hp. reflexivity.
Qed.

Lemma process_row_kept eng boxes (frame : Mat) row :
  passes (confidenceThreshold eng) row = true ->
  fst (process_row eng (boxes, frame) row)
  = boxes ++ [box_of (mat_rows frame) (mat_cols frame) row].
Proof.
  intros Hp. unfold process_row. rewrite Hp. reflexivity.
Qed.

(** What the loop does: a row is kept exactly when its confidence is
    strictly greater than the threshold. *)
Lemma kept_iff_strictly_above eng (frame : Mat) row :
  fst (process_detections eng [[row]] frame) <> []
  <-> F32.ltb (confidenceThreshold eng) (confidence row) = true.
Proof.
  unfold process_detections, process_detection; cbn [fold_left].
  fold (passes (confidenceThreshold eng) row).
  destruct (passes (confidenceThreshold eng) row) eqn:Hp.
  - rewrite process_row_kept by exact Hp. split; [reflexivity|].
    intros _. cbn. discriminate.
  - rewrite process_row_dropped by exact Hp. cbn. split.
    + intros Hne. contradiction.
    + discriminate.
Qed.

(** C7, where the code departs from it.  A detection whose confidence is
    equal to the threshold satisfies [confidence >= threshold], yet the
    loop keeps no box for it and draws nothing on the frame. *)
Theorem C7_detection_at_threshold_is_dropped eng (frame : Mat) row :
  SFcompare (confidenceThreshold eng) (confidence row) = Some Eq ->
  F32.leb (confidenceThreshold eng) (confidence row) = true
  /\ process_detections eng [[row]] frame = ([], frame).
Proof.
  intros Heq. split.
  - unfold F32.leb, SFleb. rewrite Heq. reflexivity.
  - unfold process_detections, process_detection; cbn [fold_left].
    apply process_row_dropped.
    unfold passes, F32.ltb, SFltb. rewrite Heq. reflexivity.
Qed.
End DetectFacts.

(** C7, at a concrete input: threshold [0.5], one row whose best class
    score is [0.5]. *)
Lemma C7_witness :
  SFcompare (Detect.confidenceThreshold Sample.engine)
            (Detect.confidence Sample.row_at_threshold) = Some Eq
  /\ F32.leb (Detect.confidenceThreshold Sample.engine)
             (Detect.confidence Sample.row_at_threshold) = true
  /\ Detect.process_detections Sample.engine [[Sample.row_at_threshold]]
       (Sample.frame 1) = ([], Sample.frame 1).
Proof.
  split.
  - vm_compute. reflexivity.
  - apply (C7_detection_at_threshold_is_dropped Sample.engine (Sample.frame 1)
             Sample.row_at_threshold).
    vm_compute. reflexivity.
Defined.

(** ** Atmospheric light *)

Section DefogFacts.
Import Defog.
Variable sort : (nat -> nat -> bool) -> list nat -> list nat.

(** The [for] of lines 87-91 never leaves the image and sums the pixels
    [sel[s], .., sel[s+m-1]]. *)
Lemma fold_add_pixel (src : list Vec3f) (sel : list nat) :
  (forall k, In k sel -> (k < length src)%nat) ->
  forall (m s : nat) (a : Vec3f),
    (s + m <= length sel)%nat ->
    fold_left (add_pixel src sel) (seq s m) (Some a)
    = Some (fold_left add3
              (map (fun k => nth k src zero3) (take m (drop s sel))) a).
Proof.
  intros Hin m. induction m as [|m IH]; intros s a Hlen.
  - reflexivity.
  - cbn [seq fold_left].
    destruct (lookup_lt_is_Some_2 sel s) as [x Hx]; [lia|].
    assert (Hxin : In x sel).
    { apply list_elem_of_In. eapply list_elem_of_lookup_2. exact Hx. }
    destruct (lookup_lt_is_Some_2 src x (Hin x Hxin)) as [px Hpx].
    unfold add_pixel at 2. rewrite Hx, Hpx.
    rewrite IH by lia.
    rewrite (drop_S sel x s Hx). cbn [take firstn map fold_left].
    rewrite (nth_lookup_Some src x zero3 px Hpx). reflexivity.
Qed.

(** The sum of pixels is the sum channel by channel. *)
Lemma fold_add3_channel (c : nat) (l : list Vec3f) :
  forall a, channel c (fold_left add3 l a)
            = fold_left F32.add (map (channel c) l) (channel c a).
Proof.
  induction l as [|px l IH]; intros a; cbn [fold_left map].
  - reflexivity.
  - rewrite IH. destruct c as [|[|c]]; reflexivity.
Qed.

Lemma channel_of_sum (c : nat) (src : list Vec3f) (sel : list nat) :
  channel c (fold_left add3 (map (fun k => nth k src zero3) sel) zero3)
  = fold_left F32.add (map (fun k => channel c (nth k src zero3)) sel) F32.zero.
Proof.
  rewrite fold_add3_channel, map_map. destruct c as [|[|c]]; reflexivity.
Qed.

Lemma numpx_bounds (imgSize : Z) :
  0 < imgSize -> 1 <= numpx imgSize <= imgSize
                 /\ numpx imgSize = Z.max (imgSize / 1000) 1.
Proof.
  intros Hpos. unfold numpx.
  rewrite Z.quot_div_nonneg by lia.
  assert (imgSize / 1000 <= imgSize).
  { apply Z.div_le_upper_bound; lia. }
  split; [lia | reflexivity].
Qed.

(** C5.  For a non-empty image given with its dark channel, and a
    [std::sort] that keeps its promise on this call, [atmLight] returns
    the three-channel average of the source over a set [sel] of
    [max(total_pixels/1000, 1)] distinct pixels of the image, and no pixel
    outside [sel] has a dark-channel value strictly above that of a pixel
    inside. *)
Theorem C5_atmLight_is_mean_over_brightest (row col : Z)
    (pSource : list Vec3f) (pDark : list F32.float) :
  0 < row * col ->
  Z.of_nat (length pDark) = row * col ->
  Z.of_nat (length pSource) = row * col ->
  sort_post (dark_comp pDark) (seq 0 (length pDark)) (argsort sort pDark) ->
  exists sel : list nat,
    atmLight sort row col pSource pDark zero3 = Some (mean_over pSource sel)
    /\ Z.of_nat (length sel) = Z.max (row * col / 1000) 1
    /\ NoDup sel
    /\ (forall k, In k sel -> (k < length pDark)%nat)
    /\ brightest pDark sel.
Proof.
  intros Hpos Hdark Hsrc [Hperm Hsorted].
  destruct (numpx_bounds (row * col) Hpos) as [Hk Hkdef].
  set (n := length pDark) in *.
  set (idx := argsort sort pDark) in *.
  set (t := Z.to_nat (row * col - numpx (row * col))).
  assert (Hlenidx : length idx = n).
  { rewrite <- (Permutation_length Hperm). apply length_seq. }
  assert (Hnd : NoDup idx).
  { rewrite <- Hperm. apply NoDup_seq. }
  assert (Hlt : forall k, In k idx -> (k < n)%nat).
  { intros k Hin. apply Permutation_sym in Hperm.
    apply (Permutation_in _ Hperm) in Hin. apply in_seq in Hin. lia. }
  assert (Hsplit : idx = take t idx ++ drop t idx)
    by (symmetry; apply take_drop).
  assert (Hin_drop : forall k, In k (drop t idx) -> In k idx).
  { intros k Hin. rewrite Hsplit. apply in_or_app. right. exact Hin. }
  assert (Hlensel : length (drop t idx) = Z.to_nat (numpx (row * col))).
  { rewrite length_drop, Hlenidx. unfold t. lia. }
  exists (drop t idx). split; [|split; [|split; [|split]]].
  - unfold atmLight. fold n. rewrite Hdark, Hsrc, !Z.eqb_refl. cbn [andb negb].
    destruct (row * col - numpx (row * col) <? 0) eqn:Hneg; [lia|].
    fold idx. fold t.
    rewrite (fold_add_pixel pSource (drop t idx)).
    + rewrite drop_0, take_ge by lia.
      unfold mean_over, channel_mean.
      rewrite Hlensel, Z2Nat.id by lia.
      rewrite <- (channel_of_sum 0), <- (channel_of_sum 1), <- (channel_of_sum 2).
      reflexivity.
    + intros k Hin. apply Hin_drop, Hlt in Hin. lia.
    + lia.
  - rewrite Hlensel, Z2Nat.id by lia. rewrite <- Hkdef. reflexivity.
  - rewrite Hsplit in Hnd. apply NoDup_app in Hnd. apply Hnd.
  - intros k Hin. apply Hlt, Hin_drop, Hin.
  - intros k j Hk_in Hj Hj_out.
    assert (Hj_idx : In j idx).
    { apply (Permutation_in _ Hperm). apply in_seq. fold n in Hj. lia. }
    rewrite Hsplit in Hj_idx. apply in_app_or in Hj_idx.
    destruct Hj_idx as [Hj_take | Hj_drop]; [|contradiction].
    apply list_elem_of_In, list_elem_of_lookup_1 in Hj_take.
    destruct Hj_take as [i Hi].
    apply lookup_take_Some in Hi. destruct Hi as [Hi Hit].
    apply list_elem_of_In, list_elem_of_lookup_1 in Hk_in.
    destruct Hk_in as [i' Hi']. rewrite lookup_drop in Hi'.
    apply (Hsorted i (t + i')%nat j k); [lia | exact Hi | exact Hi'].
Qed.
End DefogFacts.

(** ** Start-up: command line validation *)

Section CliFacts.
Context {Mat : Type}.
Import Cli.
Variable fileExists : string -> option bool.
Variable stod : string -> StodResult.

Lemma validatePath_verdict path :
  snd (validatePath fileExists path)
  = match path_verdict fileExists path with
    | Accepted => Some true
    | Rejected => Some false
    | Throws => None
    end.
Proof.
  unfold validatePath, path_verdict.
  destruct (isValidUrl path); [reflexivity|].
  destruct (fileExists path) as [[|]|]; reflexivity.
Qed.

Lemma validateArguments_verdict a :
  snd (validateArguments fileExists a)
  = match path_verdict fileExists (modelPath a) with
    | Accepted =>
        match path_verdict fileExists (videoPath a) with
        | Accepted => Some true
        | Rejected => Some false
        | Throws => None
        end
    | Rejected => Some false
    | Throws => None
    end.
Proof.
  unfold validateArguments.
  rewrite <- (validatePath_verdict (videoPath a)).
  pose proof (validatePath_verdict (modelPath a)) as Hm.
  destruct (validatePath fileExists (modelPath a)) as [o1 r1]. cbn in Hm.
  destruct (path_verdict fileExists (modelPath a)); subst r1;
    destruct (validatePath fileExists (videoPath a)); reflexivity.
Qed.

(** The paths [parseArguments] stores do not depend on the threshold. *)
Lemma parseArguments_paths argv o a :
  parseArguments stod argv = (o, Some a) ->
  modelPath a = value_or_empty (parsed_args argv) "--modelPath"
  /\ videoPath a = value_or_empty (parsed_args argv) "--videoPath".
Proof.
  unfold parseArguments. intros Hp.
  destruct (parsed_args argv !! "--threshold") as [v|].
  - destruct (stod v); inversion Hp; subst; cbn; auto.
  - inversion Hp; subst; cbn; auto.
Qed.

Lemma usage_printed_last (o : list Output) name :
  usage_printed (o ++ [ErrUsage name]) = true.
Proof.
  unfold usage_printed. rewrite existsb_app. cbn. apply orb_true_r.
Qed.

Lemma usage_not_printed_by_validation a :
  usage_printed (fst (validateArguments fileExists a)) = false.
Proof.
  unfold validateArguments, validatePath.
  destruct (isValidUrl (modelPath a)), (fileExists (modelPath a)) as [[|]|],
    (isValidUrl (videoPath a)), (fileExists (videoPath a)) as [[|]|];
    reflexivity.
Qed.

Lemma usage_not_printed_by_parsing argv :
  usage_printed (fst (parseArguments stod argv)) = false.
Proof.
  unfold parseArguments.
  destruct (parsed_args argv !! "--threshold") as [v|]; [|reflexivity].
  destruct (stod v); reflexivity.
Qed.

(** [parseArguments] ends with an exception exactly when [std::stod]
    throws [std::out_of_range] on the threshold. *)
Lemma parseArguments_throws argv :
  snd (parseArguments stod argv) = None
  <-> exists v, parsed_args argv !! "--threshold" = Some v
                /\ stod v = StodOutOfRange.
Proof.
  unfold parseArguments.
  destruct (parsed_args argv !! "--threshold") as [v|] eqn:Hv.
  - destruct (stod v) eqn:Hs; cbn; split; try discriminate.
    + intros (v' & Hv' & Hs'). inversion Hv'; subst. congruence.
    + intros (v' & Hv' & Hs'). inversion Hv'; subst. congruence.
    + intros _. exists v. auto.
    + reflexivity.
  - cbn. split; [discriminate|]. intros (v' & Hv' & _). discriminate.
Qed.

End CliFacts.


(** ** The theorems at concrete inputs *)

(** The bus of [main], with the schedule [Sample.schedule]: a captured
    frame, a defogged frame and another captured frame are posted while
    the loop runs. *)
Lemma C1_witness :
  exists n, forall m, (n <= m)%nat ->
    let b : Sample.Bus :=
      Dispatcher.loop_run m
        (Dispatcher.run_schedule Sample.schedule
           (Dispatcher.boot Processor.main_registrations Processor.new_pipeline)) in
    Dispatcher.out b
      = [ Dispatcher.Invoked FrameCaptureReady (Sample.capture 1);
          Dispatcher.Invoked FrameDefoggerReady (Sample.defogged 2);
          Dispatcher.Invoked FrameCaptureReady (Sample.capture 3) ]
    /\ length (Dispatcher.out b) = 3%nat
    /\ Dispatcher.world b
       = fold_left
           (Dispatcher.dispatch_world
              (Dispatcher.handlerContainer
                 (Dispatcher.register_all Processor.main_registrations
                    Dispatcher.new_dispatcher)))
           [Sample.capture 1; Sample.defogged 2; Sample.capture 3]
           Processor.new_pipeline
    /\ Dispatcher.eventQueue (Dispatcher.disp b) = []
    /\ Dispatcher.pc b = Dispatcher.AtWait
    /\ Dispatcher.loopAsleep (Dispatcher.disp b) = true.
Proof.
  apply (C1_dispatch_fifo Processor.main_registrations Processor.new_pipeline
           Sample.schedule).
  repeat constructor; vm_compute; eexists; reflexivity.
Defined.

(** What the three handler calls leave in the stage queues. *)
Example C1_stage_queues :
  let w := fold_left
             (Dispatcher.dispatch_world
                (Dispatcher.handlerContainer
                   (Dispatcher.register_all Processor.main_registrations
                      Dispatcher.new_dispatcher)))
             [Sample.capture 1; Sample.defogged 2; Sample.capture 3]
             Processor.new_pipeline in
  Processor.frameQueue (Processor.defogger w)
    = [(Sample.frame 1, Sample.frame 1); (Sample.frame 3, Sample.frame 3)]
  /\ Processor.frameQueue (Processor.inferenceEngine w)
    = [(Sample.frame 2, Sample.frame 2)]
  /\ Processor.frameQueue (Processor.guiRenderer w) = [].
Proof. vm_compute. repeat split. Qed.

Lemma C6_witness :
  Dispatcher.out (Dispatcher.loop_run 4 Sample.draining_unhandled)
    = [ Dispatcher.Cerr Dispatcher.no_handler_msg;
        Dispatcher.Invoked FrameCaptureReady (Sample.capture 1) ]
  /\ Dispatcher.pc (Dispatcher.loop_run 4 Sample.draining_unhandled) = Dispatcher.AtDrain
  /\ Dispatcher.eventQueue (Dispatcher.disp (Dispatcher.loop_run 4 Sample.draining_unhandled))
     = [].
Proof.
  destruct (C6_unhandled_event_is_skipped Sample.draining_unhandled Sample.initial
              [Sample.capture 1] eq_refl eq_refl eq_refl) as [_ Hrun].
  change (2 * length [Sample.initial; Sample.capture 1])%nat with 4%nat in Hrun.
  rewrite Hrun. repeat split.
Defined.

Lemma C3_witness :
  Processor.Defogger_processEvents_step Sample.defog
    (Sample.woken_stopped, Sample.empty_bus)
  = (Processor.mkStage (Processor.proc Sample.woken_stopped) Processor.WReturned,
     Sample.empty_bus)
  /\ Processor.run_steps
       (Processor.InferenceEngine_processEvents_step Sample.engine
          Sample.forward_nothing) 2
       (Sample.woken_running, Sample.empty_bus)
     = (Processor.mkStage
          (Processor.mkProcessor true [(Sample.frame 2, Sample.frame 2)] false)
          Processor.WWhile,
        Dispatcher.postEvent
          (mkEvent FrameDetectionReady (Sample.frame 1, Sample.frame 1))
          Sample.empty_bus).
Proof.
  destruct (C3_exit_follows_running_flag Sample.defog Sample.engine
              Sample.forward_nothing Sample.woken_stopped Sample.empty_bus
              eq_refl) as [(Hstop & _ & _) _].
  destruct (C3_exit_follows_running_flag Sample.defog Sample.engine
              Sample.forward_nothing Sample.woken_running Sample.empty_bus
              eq_refl) as [_ (_ & _ & Hrun)].
  split.
  - apply Hstop. reflexivity.
  - apply (Hrun (Sample.frame 1, Sample.frame 1)
                [(Sample.frame 2, Sample.frame 2)]); reflexivity.
Defined.

Lemma C9_witness :
  let p := Processor.mkProcessor true [(Sample.frame 1, Sample.frame 1)] true in
  Processor.frameQueue (Processor.handleEvent Processor.Defogger Sample.initial p)
    = Processor.frameQueue p
  /\ Processor.frameQueue
       (Processor.handleEvent Processor.VideoProcessor Sample.initial p)
     = Processor.frameQueue p
  /\ Processor.frameQueue
       (Processor.handleEvent Processor.VideoProcessor (Sample.capture 2) p)
     = Processor.frameQueue p.
Proof.
  intros p.
  destruct (C9_initial_state_is_never_enqueued Processor.Defogger Sample.initial p)
    as (H1 & _ & _ & H2).
  destruct (C9_initial_state_is_never_enqueued Processor.VideoProcessor
              (Sample.capture 2) p) as (_ & H3 & _ & _).
  split; [apply H1; reflexivity | split; [exact H2 | apply H3; reflexivity]].
Defined.

Lemma C10_witness :
  Dispatcher.eventQueue
    (snd (Processor.run_steps (Processor.Defogger_processEvents_step Sample.defog) 2
            (Sample.woken_running, Sample.empty_bus)))
  = [mkEvent FrameDefoggerReady (Sample.frame 1, Sample.frame 1001)]
  /\ Dispatcher.eventQueue
       (snd (Processor.run_steps
               (Processor.InferenceEngine_processEvents_step Sample.engine
                  Sample.forward_nothing) 2
               (Sample.woken_running, Sample.empty_bus)))
     = [mkEvent FrameDetectionReady (Sample.frame 1, Sample.frame 1)].
Proof.
  destruct (C10_one_event_per_payload Sample.defog Sample.engine
              Sample.forward_nothing Sample.woken_running Sample.empty_bus
              (Sample.frame 1, Sample.frame 1)
              [(Sample.frame 2, Sample.frame 2)] eq_refl eq_refl eq_refl)
    as (H1 & H2 & _).
  split; [exact H1 | exact H2].
Defined.

(** The 2 x 2 sample image: one pixel is selected, the one with the
    brightest dark-channel value. *)
Lemma C5_witness :
  exists sel : list nat,
    Defog.atmLight Defog.insertion_sort 2 2 Sample.image Sample.dark Defog.zero3
      = Some (Defog.mean_over Sample.image sel)
    /\ Z.of_nat (length sel) = Z.max (2 * 2 / 1000) 1
    /\ NoDup sel
    /\ (forall k, In k sel -> (k < length Sample.dark)%nat)
    /\ Defog.brightest Sample.dark sel.
Proof.
  apply (C5_atmLight_is_mean_over_brightest Defog.insertion_sort 2 2
           Sample.image Sample.dark).
  - lia.
  - reflexivity.
  - reflexivity.
  - split.
    + vm_compute. solve_Permutation.
    + intros i j a b Hij Hi Hj.
      change (Defog.argsort Defog.insertion_sort Sample.dark)
        with [3; 0; 2; 1]%nat in Hi, Hj.
      destruct i as [|[|[|[|i]]]]; destruct j as [|[|[|[|j]]]];
        cbn in Hi, Hj; try lia; try discriminate;
        injection Hi as <-; injection Hj as <-; vm_compute; reflexivity.
Defined.

Example C5_sample_value :
  Defog.atmLight Defog.insertion_sort 2 2 Sample.image Sample.dark Defog.zero3
  = Some (Defog.mkVec3f Sample.f_3_4 Sample.f_9_10 Sample.f_3_4).
Proof. vm_compute. reflexivity. Qed.

(** An image without pixels makes [atmLight] step outside [tIndices]. *)
Example atmLight_empty_image :
  Defog.atmLight Defog.insertion_sort 0 0 [] [] Defog.zero3 = None.
Proof. reflexivity. Qed.


(* ===================================================================== *)
(** * Part III: further properties of the code                            *)
(* ===================================================================== *)

(** ** The bus: registration and shutdown *)

Section BusMore.
Context {Mat W : Type}.
Import Dispatcher.

Implicit Types (b : Dispatcher.Bus Mat W)
               (d : Dispatcher.EventDispatcher Mat W)
               (hs : gmap EventType (Dispatcher.Handler Mat W))
               (q : list (Event Mat)) (w : W)
               (regs : list (EventType * Dispatcher.Handler Mat W)).

Lemma find_handler_registerHandler t h d t' :
  find_handler (handlerContainer (registerHandler t h d)) t'
  = if decide (t = t') then Some h else find_handler (handlerContainer d) t'.
Proof.
  unfold find_handler, registerHandler; cbn.
  destruct (decide (t = t')) as [->|Hne].
  - apply lookup_insert_eq.
  - apply lookup_insert_ne. exact Hne.
Qed.

(** X1.  A later [registerHandler] for a type replaces the earlier one: after a
    sequence of registrations the table maps every type to the handler of
    the last registration that names it, and keeps what it had for the
    types no registration names. *)
Theorem register_all_last_wins regs d t :
  find_handler (handlerContainer (register_all regs d)) t
  = match Wiring.last_registration regs t with
    | Some h => Some h
    | None => find_handler (handlerContainer d) t
    end.
Proof.
  revert d. induction regs as [|r regs IH]; intros d.
  - reflexivity.
  - change (register_all (r :: regs) d)
      with (register_all regs (registerHandler (fst r) (snd r) d)).
    rewrite IH. cbn [Wiring.last_registration].
    destruct (Wiring.last_registration regs t) as [h|]; [reflexivity|].
    rewrite find_handler_registerHandler.
    destruct (decide (fst r = t)); reflexivity.
Qed.

Lemma find_handler_empty t :
  find_handler (∅ : gmap EventType (Dispatcher.Handler Mat W)) t = None.
Proof. unfold find_handler. apply lookup_empty. Qed.

Lemma is_shut_act (a : Action Mat) b :
  Wiring.is_shut b ->
  Wiring.is_shut (act a b)
  /\ world (act a b) = world b
  /\ exists k, (k <= 1)%nat
               /\ out (act a b) = out b ++ replicate k (Cerr no_handler_msg).
Proof.
  intros [Hr Hh]. destruct b as [[r q a0 hs] p w o]; cbn in Hr, Hh. subst r hs.
  assert (Hquiet : forall b' : Dispatcher.Bus Mat W,
             running (disp b') = false -> handlerContainer (disp b') = ∅ ->
             world b' = w -> out b' = o ->
             Wiring.is_shut b' /\ world b' = w
             /\ exists k, (k <= 1)%nat
                          /\ out b' = o ++ replicate k (Cerr no_handler_msg)).
  { intros b' H1 H2 H3 H4. split; [split; assumption|]. split; [assumption|].
    exists 0%nat. cbn. rewrite app_nil_r. auto. }
  destruct a as [e|]; cbn [act world out].
  - apply Hquiet; reflexivity.
  - destruct p as [| | | |e|].
    + apply Hquiet; reflexivity.
    + destruct a0, q; apply Hquiet; reflexivity.
    + apply Hquiet; reflexivity.
    + destruct q as [|e q]; apply Hquiet; reflexivity.
    + rewrite dispatch_step. cbn.
      unfold dispatch_world, dispatch_obs. rewrite find_handler_empty.
      split; [split; reflexivity|]. split; [reflexivity|].
      exists 1%nat. auto.
    + apply Hquiet; reflexivity.
Qed.

Lemma shut_schedule_quiet (sched : list (Action Mat)) :
  forall b0, Wiring.is_shut b0 ->
    let b' := run_schedule sched b0 in
    world b' = world b0 /\ Wiring.is_shut b'
    /\ exists k, (k <= length sched)%nat
                 /\ out b' = out b0 ++ replicate k (Cerr no_handler_msg).
Proof.
  induction sched as [|a sched IH]; intros b0 Hs; cbv zeta.
  - cbn. split; [reflexivity|]. split; [exact Hs|].
    exists 0%nat. cbn. rewrite app_nil_r. auto.
  - change (run_schedule (a :: sched) b0) with (run_schedule sched (act a b0)).
    destruct (is_shut_act a b0 Hs) as (Hs' & Hw & k1 & Hk1 & Ho1).
    destruct (IH (act a b0) Hs') as (Hw2 & Hs2 & k2 & Hk2 & Ho2).
    split; [rewrite Hw2; exact Hw|]. split; [exact Hs2|].
    exists (k1 + k2)%nat. split; [cbn; lia|].
    rewrite Ho2, Ho1, <- app_assoc, replicate_add. reflexivity.
Qed.

(** On a bus that has been shut down no lookup succeeds, so the loop with
    the lookup and the call apart moves as the loop that has them in one
    step. *)
Lemma unlocked_act_shut (a : Action Mat) b :
  Wiring.is_shut b ->
  Unlocked.act a (Unlocked.mkLoop b Unlocked.NotYet)
  = Unlocked.mkLoop (act a b) Unlocked.NotYet.
Proof.
  intros [Hr Hh]. destruct a as [e|]; [reflexivity|].
  destruct b as [d p w o]; cbn in Hr, Hh.
  destruct p; try reflexivity.
  cbn. rewrite Hh, find_handler_empty. reflexivity.
Qed.

Lemma unlocked_schedule_shut (sched : list (Action Mat)) :
  forall b, Wiring.is_shut b ->
    Unlocked.run_schedule sched (Unlocked.mkLoop b Unlocked.NotYet)
    = Unlocked.mkLoop (run_schedule sched b) Unlocked.NotYet.
Proof.
  induction sched as [|a sched IH]; intros b Hs; [reflexivity|].
  change (Unlocked.run_schedule (a :: sched) (Unlocked.mkLoop b Unlocked.NotYet))
    with (Unlocked.run_schedule sched
            (Unlocked.act a (Unlocked.mkLoop b Unlocked.NotYet))).
  rewrite (unlocked_act_shut a b Hs).
  rewrite IH by (apply (is_shut_act a b Hs)). reflexivity.
Qed.

Lemma unlocked_run_shut (n : nat) :
  forall b, Wiring.is_shut b ->
    Unlocked.loop_run n (Unlocked.mkLoop b Unlocked.NotYet)
    = Unlocked.mkLoop (loop_run n b) Unlocked.NotYet.
Proof.
  induction n as [|n IH]; intros b Hs; [reflexivity|].
  cbn [Unlocked.loop_run loop_run].
  change (Unlocked.loop_step (Unlocked.mkLoop b Unlocked.NotYet))
    with (Unlocked.act Tick (Unlocked.mkLoop b Unlocked.NotYet)).
  rewrite (unlocked_act_shut Tick b Hs).
  apply IH. apply (is_shut_act Tick b Hs).
Qed.

(** X2.  After a [shutdownEventloop] that does not fall between a lookup
    and its call, no handler is ever called again: whatever is posted and
    however long the loop runs, the world the handlers act on stays as it
    was, no lookup succeeds, and the only thing the loop still writes is
    the no-handler diagnostic. *)
Theorem shutdown_silences_handlers (x : Unlocked.Loop Mat W)
    (sched : list (Action Mat)) :
  Unlocked.it x = Unlocked.NotYet ->
  let x' := Unlocked.run_schedule sched (Unlocked.shutdown x) in
  let b := Unlocked.loop_bus x in
  let b' := Unlocked.loop_bus x' in
  world b' = world b
  /\ running (disp b') = false
  /\ handlerContainer (disp b') = ∅
  /\ Unlocked.it x' = Unlocked.NotYet
  /\ exists k, (k <= length sched)%nat
               /\ out b' = out b ++ replicate k (Cerr no_handler_msg).
Proof.
  intros Hit. destruct x as [b l]; cbn in Hit. subst l. cbv zeta.
  unfold Unlocked.shutdown. cbn [Unlocked.loop_bus Unlocked.it].
  assert (Hs : Wiring.is_shut (on_disp shutdownEventloop b)) by (split; reflexivity).
  rewrite (unlocked_schedule_shut sched _ Hs). cbn [Unlocked.loop_bus Unlocked.it].
  destruct (shut_schedule_quiet sched (on_disp shutdownEventloop b) Hs)
    as (Hw & [Hr Hh] & Hk).
  split; [exact Hw|]. split; [exact Hr|]. split; [exact Hh|].
  split; [reflexivity|]. exact Hk.
Qed.


Lemma drain_after_shutdown q (a : bool) w (o : list (Obs Mat)) :
  loop_run (2 * length q + 2)
    (mkBus (mkDispatcher false q a (∅ : gmap EventType (Dispatcher.Handler Mat W)))
           AtDrain w o)
  = mkBus (mkDispatcher false [] a ∅) Returned w
          (o ++ replicate (length q) (Cerr no_handler_msg)).
Proof.
  rewrite loop_run_add, drain_all.
  assert (Hw : forall q' w0,
             fold_left (dispatch_world
                          (∅ : gmap EventType (Dispatcher.Handler Mat W))) q' w0
             = w0).
  { clear. induction q' as [|e q' IH]; intros w0; cbn; [reflexivity|].
    unfold dispatch_world at 2. rewrite find_handler_empty. apply IH. }
  assert (Ho : forall q',
             map (dispatch_obs (∅ : gmap EventType (Dispatcher.Handler Mat W))) q'
             = replicate (length q') (Cerr no_handler_msg)).
  { clear. induction q' as [|e q' IH]; cbn; [reflexivity|].
    unfold dispatch_obs at 1. rewrite find_handler_empty, IH. reflexivity. }
  rewrite Hw, Ho. reflexivity.
Qed.

End BusMore.

(** ** The stages: queueing, draining, stopping *)

Section StageMore.
Context {Mat W : Type} `{OpenCV Mat}.
Import Processor.

Implicit Types (p : IProcessor Mat) (s : Stage Mat) (e : Event Mat)
               (d : Dispatcher.EventDispatcher Mat W)
               (q : list (Mat * Mat)).

Lemma handleEvent_accepts k e p :
  handleEvent k e p
  = if Wiring.accepts k e
    then mkProcessor (running p) (frameQueue p ++ [data e]) false
    else p.
Proof.
  unfold handleEvent, Wiring.accepts.
  destruct (decide (type e = InitialState)) as [Hi|Hi].
  - rewrite bool_decide_eq_false_2; [reflexivity|]. intros [Hn _]. contradiction.
  - destruct (decide (type e = getAccessibleType k)) as [Ha|Ha].
    + rewrite bool_decide_eq_true_2 by (split; assumption). reflexivity.
    + rewrite bool_decide_eq_false_2; [reflexivity|]. intros [_ Hy]. contradiction.
Qed.

(** X6.  A stage's queue is a FIFO of exactly the events it accepts: after any
    sequence of [handleEvent] calls the queue is the old queue followed by
    the payloads of the accepted events (those of the stage's type, never
    [InitialState]) in arrival order; the others leave no trace, and the
    running flag is never touched. *)
Theorem handleEvent_queue_is_fifo k (es : list (Event Mat)) p :
  let p' := fold_left (fun p e => handleEvent k e p) es p in
  frameQueue p' = frameQueue p ++ map data (filter (fun e => Wiring.accepts k e = true) es)
  /\ running p' = running p.
Proof.
  cbv zeta. revert p. induction es as [|e es IH]; intros p.
  - cbn. rewrite app_nil_r. auto.
  - cbn [fold_left]. destruct (IH (handleEvent k e p)) as [Hq Hr].
    rewrite Hq, Hr, handleEvent_accepts. rewrite filter_cons.
    destruct (Wiring.accepts k e) eqn:Hacc.
    + rewrite decide_True by reflexivity. cbn.
      rewrite <- app_assoc. auto.
    + rewrite decide_False by discriminate. auto.
Qed.

Lemma eventQueue_posts (l : list (Event Mat)) d :
  Dispatcher.eventQueue (fold_left (fun d e => Dispatcher.postEvent e d) l d)
  = Dispatcher.eventQueue d ++ l.
Proof.
  revert d. induction l as [|e l IH]; intros d; cbn [fold_left].
  - rewrite app_nil_r. reflexivity.
  - rewrite IH. cbn. rewrite <- app_assoc. reflexivity.
Qed.

Lemma run_steps_add (step : Config -> Config) (n m : nat) (sd : Config (Mat:=Mat) (W:=W)) :
  run_steps step (n + m) sd = run_steps step m (run_steps step n sd).
Proof.
  revert sd. induction n as [|n IH]; intros sd; cbn; [reflexivity|apply IH].
Qed.

(** Four steps of the haze-removal worker per queued payload, and two more
    to fall asleep. *)
Lemma Defogger_drains (defog : Mat -> Mat) q :
  forall d,
    run_steps (Defogger_processEvents_step defog) (4 * length q + 2)
              (mkStage (mkProcessor true q false) WWhile, d)
    = (mkStage (mkProcessor true [] true) WWait,
       fold_left (fun d e => Dispatcher.postEvent e d)
                 (map (Defogger_output defog) q) d).
Proof.
  induction q as [|frames q IH]; intros d.
  - reflexivity.
  - replace (4 * length (frames :: q) + 2)%nat
      with (4 + (4 * length q + 2))%nat by (cbn [length]; lia).
    rewrite run_steps_add.
    change (run_steps (Defogger_processEvents_step defog) 4
              (mkStage (mkProcessor true (frames :: q) false) WWhile, d))
      with (mkStage (mkProcessor true q false) WWhile,
            Dispatcher.postEvent (Defogger_output defog frames) d).
    rewrite IH. reflexivity.
Qed.

Lemma InferenceEngine_drains (eng : Detect.Engine)
    (forward : Mat -> list Detect.DetMat) q :
  forall d,
    run_steps (InferenceEngine_processEvents_step eng forward) (4 * length q + 2)
              (mkStage (mkProcessor true q false) WWhile, d)
    = (mkStage (mkProcessor true [] true) WWait,
       fold_left (fun d e => Dispatcher.postEvent e d)
                 (map (InferenceEngine_output eng forward) q) d).
Proof.
  induction q as [|frames q IH]; intros d.
  - reflexivity.
  - replace (4 * length (frames :: q) + 2)%nat
      with (4 + (4 * length q + 2))%nat by (cbn [length]; lia).
    rewrite run_steps_add.
    assert (Hfour :
      run_steps (InferenceEngine_processEvents_step eng forward) 4
        (mkStage (mkProcessor true (frames :: q) false) WWhile, d)
      = (mkStage (mkProcessor true q false) WWhile,
         Dispatcher.postEvent (InferenceEngine_output eng forward frames) d)).
    { cbn. unfold InferenceEngine_output.
      destruct (Detect.process_detections eng (forward (snd frames)) (snd frames));
        reflexivity. }
    rewrite Hfour, IH. reflexivity.
Qed.

(** X7.  A running worker left alone with [q] in its queue works the queue off
    front to back: it posts one event per payload, in queue order, behind
    whatever the bus queue held, and then sleeps on the empty queue.  This
    holds for the haze-removal and for the detection worker. *)
Theorem workers_drain_in_order (defog : Mat -> Mat) (eng : Detect.Engine)
    (forward : Mat -> list Detect.DetMat) q d :
  let after_defog :=
    run_steps (Defogger_processEvents_step defog) (4 * length q + 2)
              (mkStage (mkProcessor true q false) WWhile, d) in
  let after_detect :=
    run_steps (InferenceEngine_processEvents_step eng forward) (4 * length q + 2)
              (mkStage (mkProcessor true q false) WWhile, d) in
  fst after_defog = mkStage (mkProcessor true [] true) WWait
  /\ Dispatcher.eventQueue (snd after_defog)
     = Dispatcher.eventQueue d ++ map (Defogger_output defog) q
  /\ fst after_detect = mkStage (mkProcessor true [] true) WWait
  /\ Dispatcher.eventQueue (snd after_detect)
     = Dispatcher.eventQueue d ++ map (InferenceEngine_output eng forward) q.
Proof.
  cbv zeta. rewrite Defogger_drains, InferenceEngine_drains. cbn [fst snd].
  rewrite !eventQueue_posts. auto.
Qed.

(** Left alone, a worker that finds its wait predicate false takes the two
    finer steps to where the loop above arrives in one: blocked. *)
Lemma worker_blocks_in_two_steps (defog : Mat -> Mat) s d :
  wpc s = WWait -> workerAsleep (proc s) = false -> wait_pred (proc s) = false ->
  Unlocked.worker_run (Defogger_processEvents_step defog) 2
                      (Unlocked.mkWorker s d false)
  = Unlocked.mkWorker (fst (Defogger_processEvents_step defog (s, d)))
                      (snd (Defogger_processEvents_step defog (s, d))) false.
Proof.
  destruct s as [[r q a] pc0]; cbn. intros -> -> Hp.
  unfold Unlocked.worker_step; cbn. rewrite Hp. cbn. reflexivity.
Qed.

End StageMore.

(** ** The wiring of [main] *)

Section WiringFacts.
Context {Mat : Type} `{OpenCV Mat}.
Import Processor.
Variable defog : Mat -> Mat.
Variable eng : Detect.Engine.
Variable forward : Mat -> list Detect.DetMat.

(** X9.  Dispatching an event through the table of [main] has, on each of the
    four stages, the effect of that stage's own [handleEvent]: the bus
    routes by type to one stage, and the stages it does not call would have
    ignored the event anyway.  In particular an [InitialState] event, for
    which [main] registers nothing, changes no stage. *)
Theorem main_routing_agrees_with_stages (k : StageKind) (e : Event Mat)
    (w : Pipeline Mat) :
  Wiring.stage_of k (Dispatcher.dispatch_world Wiring.main_handlers w e)
  = handleEvent k e (Wiring.stage_of k w).
Proof.
  destruct e as [t dat], w as [v df ie gr].
  destruct t, k; reflexivity.
Qed.

(** The step of the detection worker that holds a payload, without the
    pattern on the result of [process_detections]. *)
Lemma move_inference_body b dpc frames :
  Wiring.move defog eng forward Wiring.InferenceStep
    (Wiring.mkState b dpc (WBody frames))
  = Wiring.mkState
      (Dispatcher.mkBus
         (Dispatcher.postEvent (InferenceEngine_output eng forward frames)
            (Dispatcher.disp b))
         (Dispatcher.pc b)
         (mkPipeline (videoProcessor (Dispatcher.world b))
            (defogger (Dispatcher.world b))
            (inferenceEngine (Dispatcher.world b))
            (guiRenderer (Dispatcher.world b)))
         (Dispatcher.out b))
      dpc WWhile.
Proof.
  unfold Wiring.move, InferenceEngine_output; cbn.
  destruct (Detect.process_detections eng (forward (snd frames)) (snd frames));
    reflexivity.
Qed.

(** X10.  A frame travels the chain: once the source has posted frame [f] and
    the bus, the haze-removal worker, the bus, the detection worker and the
    bus have each run for eight steps in turn, the render stage has in its
    queue exactly the pair of the untouched original [f] and the frame
    defogged and then annotated; the other queues are empty again, and the
    bus has made its three handler calls and no other. *)
Theorem frame_reaches_render_stage (f : Mat) :
  let st := Wiring.moves defog eng forward (Wiring.relay 8 f) Wiring.started in
  let w := Dispatcher.world (Wiring.bus st) in
  let annotated :=
    snd (Detect.process_detections eng (forward (defog f)) (defog f)) in
  frameQueue (guiRenderer w) = [(f, annotated)]
  /\ frameQueue (defogger w) = []
  /\ frameQueue (inferenceEngine w) = []
  /\ frameQueue (videoProcessor w) = []
  /\ Dispatcher.eventQueue (Dispatcher.disp (Wiring.bus st)) = []
  /\ Dispatcher.out (Wiring.bus st)
     = [ Dispatcher.Invoked FrameCaptureReady (mkEvent FrameCaptureReady (f, f));
         Dispatcher.Invoked FrameDefoggerReady
           (mkEvent FrameDefoggerReady (f, defog f));
         Dispatcher.Invoked FrameDetectionReady
           (mkEvent FrameDetectionReady (f, annotated)) ].
Proof.
  assert (Hgen : forall annot : Mat -> Mat,
    let move2 := fun (m : Wiring.Move Mat) (st : Wiring.State Mat) =>
      match m, Wiring.inference_pc st with
      | Wiring.InferenceStep, WBody frames =>
          let b := Wiring.bus st in
          Wiring.mkState
            (Dispatcher.mkBus
               (Dispatcher.postEvent
                  (mkEvent FrameDetectionReady (fst frames, annot (snd frames)))
                  (Dispatcher.disp b))
               (Dispatcher.pc b)
               (mkPipeline (videoProcessor (Dispatcher.world b))
                  (defogger (Dispatcher.world b))
                  (inferenceEngine (Dispatcher.world b))
                  (guiRenderer (Dispatcher.world b)))
               (Dispatcher.out b))
            (Wiring.defogger_pc st) WWhile
      | _, _ => Wiring.move defog eng forward m st
      end in
    (forall m st, Wiring.move defog eng forward m st = move2 m st) ->
    let st := Wiring.moves defog eng forward (Wiring.relay 8 f) Wiring.started in
    let w := Dispatcher.world (Wiring.bus st) in
    frameQueue (guiRenderer w) = [(f, annot (defog f))]
    /\ frameQueue (defogger w) = []
    /\ frameQueue (inferenceEngine w) = []
    /\ frameQueue (videoProcessor w) = []
    /\ Dispatcher.eventQueue (Dispatcher.disp (Wiring.bus st)) = []
    /\ Dispatcher.out (Wiring.bus st)
       = [ Dispatcher.Invoked FrameCaptureReady (mkEvent FrameCaptureReady (f, f));
           Dispatcher.Invoked FrameDefoggerReady
             (mkEvent FrameDefoggerReady (f, defog f));
           Dispatcher.Invoked FrameDetectionReady
             (mkEvent FrameDetectionReady (f, annot (defog f))) ]).
  { intros annot move2 Hmove.
    assert (Hmoves : forall l st,
               Wiring.moves defog eng forward l st
               = fold_left (fun st m => move2 m st) l st).
    { induction l as [|m l IH]; intros st; [reflexivity|].
      unfold Wiring.moves in *. cbn [fold_left]. rewrite Hmove. apply IH. }
    cbv zeta. rewrite Hmoves. clear Hmove Hmoves.
    vm_compute. repeat split. }
  apply (Hgen (fun m => snd (Detect.process_detections eng (forward m) m))).
  intros m [b dpc ipc]. destruct m as [| | |frame].
  - destruct ipc; reflexivity.
  - destruct ipc; reflexivity.
  - destruct ipc as [| | |frames| |];
      [reflexivity | reflexivity | reflexivity | | reflexivity | reflexivity].
    apply move_inference_body.
  - destruct ipc; reflexivity.
Qed.
End WiringFacts.

(** ** The video source *)

Section VideoFacts.
Context {Mat W : Type}.
Import Video.

Implicit Types (p : Processor.IProcessor Mat)
               (d : Dispatcher.EventDispatcher Mat W)
               (rs : list (option Mat)) (o : list Video.Obs).

Lemma video_run_add isOpened fps (n m : nat) (v : Video.State Mat W) :
  run isOpened fps (n + m) v = run isOpened fps m (run isOpened fps n v).
Proof.
  revert v. induction n as [|n IH]; intros v; cbn; [reflexivity|apply IH].
Qed.

Lemma video_loop isOpened fps ms rs :
  sleep_ms fps = Some ms ->
  forall p d o,
    Processor.running p = true ->
    run isOpened fps (steps_for rs) (mkState p d VWhile rs o)
    = mkState p
        (fold_left (fun d e => Dispatcher.postEvent e d)
                   (map capture_event (frames_of rs)) d)
        VWhile [] (o ++ map (obs_of_read ms) rs).
Proof.
  intros Hms. induction rs as [|[f|] rs IH]; intros p d o Hr.
  - cbn. rewrite app_nil_r. reflexivity.
  - change (steps_for (Some f :: rs)) with (3 + steps_for rs)%nat.
    rewrite video_run_add.
    assert (Hthree :
      run isOpened fps 3 (mkState p d VWhile (Some f :: rs) o)
      = mkState p (Dispatcher.postEvent (capture_event f) d) VWhile rs
                (o ++ [SleepMs ms])).
    { cbn [run]. unfold processEvents_step; cbn [pc proc disp reads trace].
      rewrite Hr, Hms. reflexivity. }
    rewrite Hthree, IH by exact Hr. cbn [frames_of map fold_left obs_of_read].
    rewrite <- app_assoc. reflexivity.
  - change (steps_for (None :: rs)) with (2 + steps_for rs)%nat.
    rewrite video_run_add.
    assert (Htwo :
      run isOpened fps 2 (mkState p d VWhile (None :: rs) o)
      = mkState p d VWhile rs (o ++ [SeekToStart])).
    { cbn [run]. unfold processEvents_step; cbn [pc proc disp reads trace].
      rewrite Hr. reflexivity. }
    rewrite Htwo, IH by exact Hr. cbn [frames_of map fold_left obs_of_read].
    rewrite <- app_assoc. reflexivity.
Qed.

(** X11.  Where [(int)(1000 / fps)] is defined, the running source posts
    exactly the frames it reads, in the order it reads them, each as a
    [FrameCaptureReady] event carrying the same frame twice, and sleeps
    that many milliseconds once per frame; a read that fails posts nothing
    and makes it seek back to the start and try again. *)
Theorem video_posts_frames_in_order isOpened fps ms rs p d o :
  sleep_ms fps = Some ms ->
  Processor.running p = true ->
  let v := run isOpened fps (steps_for rs) (mkState p d VWhile rs o) in
  Dispatcher.eventQueue (disp v)
    = Dispatcher.eventQueue d ++ map (fun f => mkEvent FrameCaptureReady (f, f))
                                     (frames_of rs)
  /\ trace v = o ++ map (obs_of_read ms) rs
  /\ reads v = []
  /\ pc v = VWhile
  /\ proc v = p.
Proof.
  intros Hms Hr. cbv zeta. rewrite (video_loop isOpened fps ms rs Hms) by exact Hr.
  cbn. rewrite eventQueue_posts. auto.
Qed.

(** X12.  A source that cannot open its video writes one line to [std::cerr] and
    returns: it reads nothing and posts nothing, now or later. *)
Theorem video_unopened_never_posts fps (n : nat) p d rs o :
  run false fps (S n) (mkState p d VOpen rs o)
  = mkState p d VReturned rs (o ++ [CerrLine open_error_msg]).
Proof.
  cbn [run]. unfold processEvents_step at 1; cbn.
  induction n as [|n IH]; [reflexivity|exact IH].
Qed.

(** X13.  Where [(int)(1000 / fps)] is defined, a stopped source returns
    within three steps from any point of its loop, releasing the capture
    last.  Stopped at the loop test it reads and posts nothing more;
    stopped with a frame in hand it still posts that frame; stopped
    between the loop test and [capture.read] it still makes that one read,
    and posts the frame if the read delivers one. *)
Theorem video_stop_returns isOpened fps ms (v : Video.State Mat W) :
  sleep_ms fps = Some ms ->
  Processor.running (proc v) = false ->
  pc v = VWhile \/ (pc v = VRead /\ reads v <> []) \/ (exists f, pc v = VPost f) ->
  let v' := run isOpened fps 3 v in
  pc v' = VReturned
  /\ last (trace v') = Some ReleaseCapture
  /\ reads v' = match pc v with
                | VRead => tail (reads v)
                | _ => reads v
                end
  /\ Dispatcher.eventQueue (disp v')
     = Dispatcher.eventQueue (disp v)
       ++ match pc v, reads v with
          | VPost f, _ => [mkEvent FrameCaptureReady (f, f)]
          | VRead, Some f :: _ => [mkEvent FrameCaptureReady (f, f)]
          | _, _ => []
          end.
Proof.
  intros Hms Hr Hpc. destruct v as [p d pc0 rs o]; cbn in Hr, Hpc.
  destruct Hpc as [-> | [[-> Hrs] | [f ->]]].
  - cbn [run]. unfold processEvents_step; cbn. rewrite Hr. cbn.
    rewrite app_nil_r, last_snoc. auto.
  - destruct rs as [|[f|] rs]; [contradiction| |].
    + cbn [run]. unfold processEvents_step; cbn. rewrite Hms. cbn. rewrite Hr. cbn.
      rewrite last_snoc. auto.
    + cbn [run]. unfold processEvents_step; cbn. rewrite Hr. cbn.
      rewrite app_nil_r, last_snoc. auto.
  - cbn [run]. unfold processEvents_step; cbn. rewrite Hms. cbn. rewrite Hr. cbn.
    rewrite last_snoc. auto.
Qed.
End VideoFacts.

(** ** The render stage *)

Section GuiFacts.
Context {Mat W : Type} `{Gui.FrameInfo Mat}.
Import Gui.


(** X15.  Closing the window is noticed at the head of the loop only, and then
    ends the bus: the worker calls [shutdownEventloop] and returns, though
    the stage itself was never stopped and frames may still be queued. *)
Theorem gui_window_close_shuts_bus (g : Gui.State Mat W) (e1 e2 : Env) :
  pc g = GWhile ->
  shouldClose e1 = true ->
  run [e1; e2] g
  = mkState (proc g) (Dispatcher.shutdownEventloop (disp g)) GReturned
            (texture1 g) (texture2 g) (trace g).
Proof.
  intros Hpc Hclose. destruct g as [p d pc0 t1 t2 o]; cbn in Hpc. subst pc0.
  unfold run; cbn [fold_left]. unfold processEvents_step; cbn.
  rewrite Hclose, andb_false_r. reflexivity.
Qed.

(** X16.  A render worker asleep in [wait] does not see the window close: as
    long as no frame arrives and nobody calls [stop()], it stays where it
    is whatever the window reports. *)
Theorem gui_asleep_ignores_window (g : Gui.State Mat W) (envs : list Env) :
  pc g = GWait ->
  Processor.workerAsleep (proc g) = true ->
  run envs g = g.
Proof.
  intros Hpc Ha.
  assert (Hstep : forall e, processEvents_step e g = g).
  { intros e. unfold processEvents_step. rewrite Hpc, Ha. reflexivity. }
  unfold run. induction envs as [|e envs IH]; [reflexivity|].
  cbn [fold_left]. rewrite Hstep. exact IH.
Qed.

(** X17.  When GLFW cannot be initialized, or the window cannot be created, the
    worker writes one line and returns without ever touching the bus: the
    bus is not shut down. *)
Theorem gui_start_failure_leaves_bus (g : Gui.State Mat W) (e1 e2 : Env) :
  pc g = GInit ->
  glfwInit_ok e1 = false \/ (glfwInit_ok e1 = true /\ window_ok e2 = false) ->
  let g' := run [e1; e2] g in
  pc g' = GReturned
  /\ disp g' = disp g
  /\ proc g' = proc g
  /\ trace g'
     = trace g ++ [CerrLine (if glfwInit_ok e1 then window_error_msg
                             else init_error_msg)].
Proof.
  intros Hpc Hfail. destruct g as [p d pc0 t1 t2 o]; cbn in Hpc. subst pc0.
  destruct Hfail as [Hi | [Hi Hw]]; cbn; unfold processEvents_step; cbn;
    rewrite Hi; cbn; rewrite ?Hw; cbn; auto.
Qed.

Lemma generations_app slot (o1 o2 : list (Gui.Obs Mat)) :
  generations slot (o1 ++ o2) = (generations slot o1 + generations slot o2)%nat.
Proof.
  induction o1 as [|x o1 IH]; [reflexivity|].
  destruct x as [msg|s|s f c]; cbn; try exact IH.
  destruct s, slot; cbn; rewrite IH; reflexivity.
Qed.

Lemma renderFrame_effect slot (frame : Mat) (generated : bool) :
  generations slot (fst (renderFrame slot frame generated))
  = (if generated then 0
     else if snd (renderFrame slot frame generated) then 1 else 0)%nat
  /\ generations (match slot with Original => Processed | Processed => Original end)
       (fst (renderFrame slot frame generated)) = 0%nat
  /\ (generated = true -> snd (renderFrame slot frame generated) = true).
Proof.
  unfold renderFrame.
  destruct (mat_empty frame), (mat_channels frame =? 3)%Z,
    (mat_channels frame =? 4)%Z, generated, slot; cbn; auto.
Qed.

Lemma gui_step_keeps_textures (e : Env) (g : Gui.State Mat W) :
  (texture1 g = false -> generations Original (trace g) = 0%nat) ->
  (generations Original (trace g) <= 1)%nat ->
  (texture2 g = false -> generations Processed (trace g) = 0%nat) ->
  (generations Processed (trace g) <= 1)%nat ->
  let g' := processEvents_step e g in
  (texture1 g' = false -> generations Original (trace g') = 0%nat)
  /\ (generations Original (trace g') <= 1)%nat
  /\ (texture2 g' = false -> generations Processed (trace g') = 0%nat)
  /\ (generations Processed (trace g') <= 1)%nat.
Proof.
  intros Ha Hb Hc Hd. cbv zeta.
  destruct g as [[r q a] d pc0 t1 t2 o]; cbn in Ha, Hb, Hc, Hd.
  unfold processEvents_step; cbn.
  destruct pc0 as [| | | | |frames| | |].
  - destruct (glfwInit_ok e); cbn; rewrite ?generations_app; cbn;
      rewrite ?Nat.add_0_r; auto.
  - destruct (window_ok e); cbn; rewrite ?generations_app; cbn;
      rewrite ?Nat.add_0_r; auto.
  - destruct (r && negb (shouldClose e)); cbn; auto.
  - destruct a; cbn; auto.
    destruct (Processor.wait_pred _); cbn; auto.
  - destruct r; cbn; auto. destruct q; cbn; auto.
  - destruct (renderFrame_effect Original (fst frames) t1) as (E1 & E2 & F1).
    destruct (renderFrame_effect Processed (snd frames) t2) as (E3 & E4 & F3).
    destruct (renderFrame Original (fst frames) t1) as [o1 t1'].
    destruct (renderFrame Processed (snd frames) t2) as [o2 t2'].
    cbn in *. rewrite !generations_app, E1, E2, E3, E4.
    destruct t1, t2, t1', t2'; cbn;
      try (specialize (F1 eq_refl)); try (specialize (F3 eq_refl));
      try discriminate;
      try (specialize (Ha eq_refl)); try (specialize (Hc eq_refl));
      repeat split; intros; try discriminate; lia.
  - cbn; auto.
  - cbn; auto.
  - cbn; auto.
Qed.

(** X18.  A texture is created at most once per slot: however many frames the
    worker renders, against whatever the environment answers, each of the
    two textures is generated at most once; later frames reuse it. *)
Theorem gui_texture_generated_once (g : Gui.State Mat W) (envs : list Env) :
  texture1 g = false -> texture2 g = false ->
  generations Original (trace g) = 0%nat ->
  generations Processed (trace g) = 0%nat ->
  let g' := run envs g in
  (generations Original (trace g') <= 1)%nat
  /\ (generations Processed (trace g') <= 1)%nat.
Proof.
  intros H1 H2 H3 H4. cbv zeta.
  assert (Hinv : forall envs (g0 : Gui.State Mat W),
    (texture1 g0 = false -> generations Original (trace g0) = 0%nat) ->
    (generations Original (trace g0) <= 1)%nat ->
    (texture2 g0 = false -> generations Processed (trace g0) = 0%nat) ->
    (generations Processed (trace g0) <= 1)%nat ->
    (generations Original (trace (run envs g0)) <= 1)%nat
    /\ (generations Processed (trace (run envs g0)) <= 1)%nat).
  { clear. induction envs as [|e envs IH]; intros g0 Ha Hb Hc Hd.
    - cbn. auto.
    - unfold run in *. cbn [fold_left].
      destruct (gui_step_keeps_textures e g0 Ha Hb Hc Hd) as (Ha' & Hb' & Hc' & Hd').
      apply IH; assumption. }
  apply Hinv; intros; rewrite ?H3, ?H4; auto.
Qed.
End GuiFacts.

(** ** Detections: the best class and the number of boxes *)

Section DetectMore.
Context {Mat : Type} `{OpenCV Mat}.
Import Detect.

(** [operator<] on floats is transitive (a NaN is below nothing and above
    nothing). *)
Lemma SFltb_trans (a b c : spec_float) :
  SFltb a b = true -> SFltb b c = true -> SFltb a c = true.
Proof.
  unfold SFltb, SFcompare.
  destruct a as [sa|sa| |sa ma ea], b as [sb|sb| |sb mb eb],
    c as [sc|sc| |sc mc ec];
    try discriminate;
    repeat match goal with s : bool |- _ => destruct s end;
    try discriminate; try reflexivity;
    change (Pos.compare_cont Eq) with Pos.compare;
    destruct (Z.compare_spec ea eb), (Z.compare_spec eb ec),
      (Z.compare_spec ea ec); try discriminate; try reflexivity; try lia;
    destruct (Pos.compare_spec ma mb), (Pos.compare_spec mb mc),
      (Pos.compare_spec ma mc); cbn; try discriminate; try reflexivity; lia.
Qed.

(** The scan of [std::max_element]: the index it returns lies in the
    range scanned so far or ahead, and no element ahead is above the
    element it returns, provided none behind was. *)
Lemma max_element_from_spec (l : list F32.float) :
  forall (best_i i : nat) (best : F32.float) (seen : list F32.float),
    (best_i < i)%nat ->
    i = length seen ->
    nth best_i seen F32.zero = best ->
    Forall (fun x => F32.ltb best x = false) seen ->
    let k := max_element_from best_i best i l in
    (k < i + length l)%nat
    /\ Forall (fun x => F32.ltb (nth k (seen ++ l) F32.zero) x = false) (seen ++ l).
Proof.
  induction l as [|x l IH]; intros best_i i best seen Hlt Hi Hb Hseen; cbn.
  - rewrite app_nil_r, Hb. split; [lia | exact Hseen].
  - destruct (F32.ltb best x) eqn:Hbx.
    + specialize (IH i (S i) x (seen ++ [x])).
      rewrite <- app_assoc in IH. cbn in IH.
      destruct IH as [Hk Hall].
      * lia.
      * rewrite length_app. cbn. lia.
      * rewrite Hi, nth_middle. reflexivity.
      * apply Forall_app. split.
        -- eapply Forall_impl; [exact Hseen|]. intros y Hy. cbn in Hy.
           destruct (F32.ltb x y) eqn:Hxy; [|reflexivity].
           unfold F32.ltb in *.
           rewrite (SFltb_trans best x y Hbx Hxy) in Hy. discriminate.
        -- constructor; [|constructor].
           unfold F32.ltb, SFltb, SFcompare.
           destruct x as [[]|[]| |[] m e]; try reflexivity;
             rewrite Z.compare_refl; change (Pos.compare_cont Eq) with Pos.compare;
             rewrite Pos.compare_refl; reflexivity.
      * split; [lia | exact Hall].
    + specialize (IH best_i (S i) best (seen ++ [x])).
      rewrite <- app_assoc in IH. cbn in IH.
      destruct IH as [Hk Hall].
      * lia.
      * rewrite length_app. cbn. lia.
      * rewrite app_nth1 by lia. exact Hb.
      * apply Forall_app. split; [exact Hseen|]. constructor; [exact Hbx|constructor].
      * split; [lia | exact Hall].
Qed.

(** X19.  For a row that has class scores (more than five columns), the class
    the loop picks is a valid index into them, and no class score is above
    the confidence it then tests. *)
Theorem objectClass_is_best_class (row : list F32.float) :
  (probability_index < length row)%nat ->
  (objectClass row < length row - probability_index)%nat
  /\ forall j, (j < length row - probability_index)%nat ->
               F32.ltb (confidence row) (at_ row (j + probability_index)) = false.
Proof.
  intros Hlen. unfold confidence, objectClass, at_.
  assert (Hrow : row = take probability_index row ++ drop probability_index row)
    by (symmetry; apply take_drop).
  assert (Hdl : length (drop probability_index row)
                = (length row - probability_index)%nat) by apply length_drop.
  destruct (drop probability_index row) as [|x l] eqn:Hd.
  { cbn in Hdl. lia. }
  cbn [max_element].
  destruct (max_element_from_spec l 0 1 x [x]) as [Hk Hall].
  - lia.
  - reflexivity.
  - reflexivity.
  - constructor; [|constructor].
    unfold F32.ltb, SFltb, SFcompare.
    destruct x as [[]|[]| |[] m e]; try reflexivity;
      rewrite Z.compare_refl; change (Pos.compare_cont Eq) with Pos.compare;
      rewrite Pos.compare_refl; reflexivity.
  - cbn [app] in Hall. cbn [length] in Hk, Hdl.
    set (k := max_element_from 0 x 1 l) in *.
    assert (Hnth : forall j, nth (j + probability_index) row F32.zero
                             = nth j (x :: l) F32.zero).
    { intros j. rewrite Hrow at 1.
      rewrite app_nth2 by (rewrite length_take; lia).
      rewrite length_take. f_equal. lia. }
    split; [lia|].
    intros j Hj. rewrite !Hnth.
    rewrite Forall_forall in Hall. apply Hall.
    apply list_elem_of_In, nth_In. cbn [length]. lia.
Qed.

Lemma process_row_count eng (acc : Acc) row :
  length (fst (process_row eng acc row))
  = (length (fst acc) + if passes (confidenceThreshold eng) row then 1 else 0)%nat.
Proof.
  unfold process_row. destruct acc as [boxes frame].
  destruct (passes (confidenceThreshold eng) row); cbn.
  - rewrite length_app. reflexivity.
  - lia.
Qed.

Lemma process_detection_count eng (rows : list (list F32.float)) :
  forall acc : Acc,
    length (fst (process_detection eng acc rows))
    = (length (fst acc)
       + length (filter (fun row => passes (confidenceThreshold eng) row = true) rows))%nat.
Proof.
  unfold process_detection.
  induction rows as [|row rows IH]; intros acc; cbn [fold_left].
  - cbn. lia.
  - rewrite IH, process_row_count. rewrite filter_cons.
    destruct (passes (confidenceThreshold eng) row).
    + rewrite decide_True by reflexivity. cbn. lia.
    + rewrite decide_False by discriminate. lia.
Qed.

(** X20.  The loop keeps one box per row whose confidence passes the test, over
    all output blobs of the network: as many boxes as passing rows, no
    more and no fewer. *)
Theorem boxes_count_passing_rows eng (detections : list DetMat) (frame : Mat) :
  length (fst (process_detections eng detections frame))
  = length (filter (fun row => passes (confidenceThreshold eng) row = true)
                   (concat detections)).
Proof.
  unfold process_detections.
  assert (Hgen : forall acc : Acc,
    length (fst (fold_left (process_detection eng) detections acc))
    = (length (fst acc)
       + length (filter (fun row => passes (confidenceThreshold eng) row = true)
                        (concat detections)))%nat).
  { induction detections as [|rows dets IH]; intros acc; cbn [fold_left concat].
    - cbn. lia.
    - rewrite IH, process_detection_count, filter_app, length_app. lia. }
  rewrite Hgen. reflexivity.
Qed.
End DetectMore.

(** ** Atmospheric light: empty images and the accumulator *)

Section DefogMore.
Import Defog.
Variable sort : (nat -> nat -> bool) -> list nat -> list nat.

(** X21.  An image without pixels never yields an estimate: [tNumpx] is still 1,
    and the code would step in front of [tIndices.begin()]. *)
Theorem atmLight_needs_a_pixel (row col : Z) (pSource : list Vec3f)
    (pDark : list F32.float) (pOutA : Vec3f) :
  row * col <= 0 ->
  atmLight sort row col pSource pDark pOutA = None.
Proof.
  intros Hsize. unfold atmLight.
  destruct (Z.of_nat (length pDark) =? row * col) eqn:Hd; [|reflexivity].
  destruct (Z.of_nat (length pSource) =? row * col) eqn:Hs; [|reflexivity].
  cbn [andb negb].
  apply Z.eqb_eq in Hd.
  assert (Hzero : row * col = 0) by lia.
  rewrite Hzero. reflexivity.
Qed.

(** X22.  [atmLight] adds onto whatever [pOutA] holds: for a non-empty image and
    a [std::sort] that returns the indices it was given, each channel of
    the result is the sum that starts from the old value of that channel
    of [pOutA], runs over the last [max(total_pixels/1000, 1)] indices of
    the sorted vector, and is then divided by their number.  A caller who
    does not clear [pOutA] gets the old values mixed in. *)
Theorem atmLight_accumulates_onto_pOutA (row col : Z) (pSource : list Vec3f)
    (pDark : list F32.float) (pOutA : Vec3f) :
  0 < row * col ->
  Z.of_nat (length pDark) = row * col ->
  Z.of_nat (length pSource) = row * col ->
  Permutation (seq 0 (length pDark)) (argsort sort pDark) ->
  let tNumpx := Z.max (row * col / 1000) 1 in
  let sel := drop (Z.to_nat (row * col - tNumpx)) (argsort sort pDark) in
  let total c :=
    fold_left F32.add (map (fun k => channel c (nth k pSource zero3)) sel)
              (channel c pOutA) in
  atmLight sort row col pSource pDark pOutA
  = Some (mkVec3f (F32.div (total 0%nat) (F32.of_Z tNumpx))
                  (F32.div (total 1%nat) (F32.of_Z tNumpx))
                  (F32.div (total 2%nat) (F32.of_Z tNumpx))).
Proof.
  intros Hpos Hdark Hsrc Hperm. cbv zeta.
  destruct (numpx_bounds (row * col) Hpos) as [Hk Hkdef].
  rewrite <- Hkdef.
  set (n := length pDark) in *.
  set (idx := argsort sort pDark) in *.
  set (t := Z.to_nat (row * col - numpx (row * col))).
  assert (Hlenidx : length idx = n).
  { rewrite <- (Permutation_length Hperm). apply length_seq. }
  assert (Hlt : forall k, In k (drop t idx) -> (k < length pSource)%nat).
  { intros k Hin.
    assert (Hk_idx : In k idx).
    { rewrite <- (take_drop t idx). apply in_or_app. right. exact Hin. }
    apply Permutation_sym in Hperm.
    apply (Permutation_in _ Hperm) in Hk_idx. apply in_seq in Hk_idx. lia. }
  assert (Hlensel : length (drop t idx) = Z.to_nat (numpx (row * col))).
  { rewrite length_drop, Hlenidx. unfold t. lia. }
  unfold atmLight. fold n. rewrite Hdark, Hsrc, !Z.eqb_refl. cbn [andb negb].
  destruct (row * col - numpx (row * col) <? 0) eqn:Hneg; [lia|].
  fold idx. fold t.
  rewrite (fold_add_pixel pSource (drop t idx) Hlt) by lia.
  rewrite drop_0, take_ge by lia.
  rewrite <- !(map_map (fun k => nth k pSource zero3) (channel _)).
  rewrite <- !fold_add3_channel. reflexivity.
Qed.
End DefogMore.

(** ** The command line: splitting, duplicates, required paths *)

Section CliMore.
Context {Mat : Type}.
Import Cli.
Variable fileExists : string -> option bool.
Variable stod : string -> StodResult.

Lemma substring_all (s : string) : String.substring 0 (String.length s) s = s.
Proof.
  induction s as [|c s IH]; cbn; [reflexivity|]. rewrite IH. reflexivity.
Qed.

(** X23.  An argument is cut at its first colon and at no other: the key has no
    colon, and key, colon and value put together give the argument back,
    so the value keeps every later colon (as in a URL). *)
Theorem split_arg_at_first_colon (arg : string) :
  match Args.split_arg arg with
  | Some (key, value) =>
      arg = (key ++ ":" ++ value)%string /\ find_colon key = None
  | None => find_colon arg = None
  end.
Proof.
  unfold Args.split_arg.
  induction arg as [|c arg IH]; cbn [find_colon].
  - reflexivity.
  - destruct (Ascii.eqb c ":") eqn:Hc.
    + apply Ascii.eqb_eq in Hc. subst c. cbn.
      rewrite Nat.sub_0_r, substring_all. auto.
    + destruct (find_colon arg) as [pos|] eqn:Hf; [|reflexivity].
      destruct IH as [Harg Hkey].
      cbn. rewrite Hc. split.
      * change (String c arg
                = String c (String.substring 0 pos arg ++ ":"
                    ++ String.substring (pos + 1) (String.length arg - (pos + 1)) arg)%string).
        f_equal. exact Harg.
      * rewrite Hkey. reflexivity.
Qed.

Lemma add_arg_split (args : gmap string string) (arg : string) :
  add_arg args arg
  = match Args.split_arg arg with
    | Some (key, value) => <[key := value]> args
    | None => args
    end.
Proof.
  unfold add_arg, Args.split_arg. destruct (find_colon arg); reflexivity.
Qed.

Lemma fold_add_arg_lookup (l : list string) :
  forall (m : gmap string string) (key : string),
    fold_left add_arg l m !! key
    = match Args.last_value l key with
      | Some v => Some v
      | None => m !! key
      end.
Proof.
  induction l as [|a l IH]; intros m key; cbn [fold_left Args.last_value].
  - reflexivity.
  - rewrite IH. destruct (Args.last_value l key) as [v|]; [reflexivity|].
    rewrite add_arg_split.
    destruct (Args.split_arg a) as [[k v]|]; [|reflexivity].
    destruct (decide (k = key)) as [->|Hne].
    + apply lookup_insert_eq.
    + apply lookup_insert_ne. exact Hne.
Qed.

(** X24.  Of several arguments with the same key the last one counts; arguments
    without a colon, and the program name [argv[0]], count for nothing. *)
Theorem parsed_args_last_wins (argv : list string) (key : string) :
  parsed_args argv !! key = Args.last_value (tail argv) key.
Proof.
  unfold parsed_args. rewrite fold_add_arg_lookup.
  destruct (Args.last_value (tail argv) key); [reflexivity|apply lookup_empty].
Qed.

(** What [main] does once the arguments are parsed and one of the paths is
    turned down. *)
Lemma main_turns_down (argv : list string) o a o' :
  parseArguments stod argv = (o, Some a) ->
  validateArguments fileExists a = (o', Some false) ->
  main (Mat:=Mat) fileExists stod argv
  = (o ++ o' ++ [ErrUsage (hd EmptyString argv)], Exited 1).
Proof.
  intros Hp Hv. unfold main. rewrite Hp, Hv. reflexivity.
Qed.

Lemma parseArguments_defined (argv : list string) :
  (forall v, parsed_args argv !! "--threshold" = Some v -> stod v <> StodOutOfRange) ->
  exists o a, parseArguments stod argv = (o, Some a)
              /\ modelPath a = value_or_empty (parsed_args argv) "--modelPath"
              /\ videoPath a = value_or_empty (parsed_args argv) "--videoPath".
Proof.
  intros Hrange. unfold parseArguments.
  destruct (parsed_args argv !! "--threshold") as [v|] eqn:Hv.
  - specialize (Hrange v eq_refl).
    destruct (stod v); [| |contradiction]; eexists _, _; cbn; auto.
  - eexists _, _; cbn; auto.
Qed.

Lemma validateArguments_turns_down a :
  path_verdict fileExists (modelPath a) = Rejected
  \/ (path_verdict fileExists (modelPath a) = Accepted
      /\ path_verdict fileExists (videoPath a) = Rejected) ->
  snd (validateArguments fileExists a) = Some false.
Proof.
  unfold validateArguments, validatePath, path_verdict.
  destruct (isValidUrl (modelPath a)), (fileExists (modelPath a)) as [[|]|],
    (isValidUrl (videoPath a)), (fileExists (videoPath a)) as [[|]|];
    cbn; intros [H | [H1 H2]]; try discriminate; reflexivity.
Qed.

(** X25.  Both paths are required.  Where [std::filesystem::exists] denies
    the empty path and [std::stod] does not throw [std::out_of_range], a
    command line that gives no [--modelPath], or gives a [--modelPath] on
    which [exists] does not throw and no [--videoPath], makes the program
    print the usage line last and return 1 with no stage started. *)
Theorem main_requires_both_paths (argv : list string) :
  fileExists EmptyString = Some false ->
  (forall v, parsed_args argv !! "--threshold" = Some v -> stod v <> StodOutOfRange) ->
  parsed_args argv !! "--modelPath" = None
  \/ (parsed_args argv !! "--videoPath" = None
      /\ path_verdict fileExists (value_or_empty (parsed_args argv) "--modelPath")
         <> Throws) ->
  let r := main (Mat:=Mat) fileExists stod argv in
  snd r = Exited 1
  /\ last (fst r) = Some (ErrUsage (hd EmptyString argv))
  /\ stages_started (snd r) = [].
Proof.
  intros Hfs Hrange Hmiss. cbv zeta.
  destruct (parseArguments_defined argv Hrange) as (o & a & Hp & Hm & Hv).
  assert (Hempty : path_verdict fileExists EmptyString = Rejected).
  { unfold path_verdict. rewrite Hfs. reflexivity. }
  assert (Hbad : snd (validateArguments fileExists a) = Some false).
  { apply validateArguments_turns_down. rewrite Hm, Hv. unfold value_or_empty.
    destruct Hmiss as [-> | [-> Hnt]].
    - left. exact Hempty.
    - unfold value_or_empty in Hnt.
      destruct (path_verdict fileExists
                  match parsed_args argv !! "--modelPath" with
                  | Some v => v
                  | None => EmptyString
                  end); [right; auto | left; reflexivity | contradiction]. }
  destruct (validateArguments fileExists a) as [o' ok] eqn:Hva.
  cbn in Hbad. subst ok.
  rewrite (main_turns_down argv o a o' Hp Hva). cbn.
  repeat split. rewrite !app_assoc. apply last_snoc.
Qed.

(** X26.  The video path is looked at only after the model path has
    passed: when [std::stod] does not throw [std::out_of_range] and
    [std::filesystem::exists] denies a model path that is not a URL, the
    program reports that path alone and prints the usage line; nothing is
    said about the video path, whatever it is, and [exists] is not asked
    about it. *)
Theorem bad_model_path_hides_video_path (argv : list string) :
  (forall v, parsed_args argv !! "--threshold" = Some v -> stod v <> StodOutOfRange) ->
  let model := value_or_empty (parsed_args argv) "--modelPath" in
  path_verdict fileExists model = Rejected ->
  main (Mat:=Mat) fileExists stod argv
  = (fst (parseArguments stod argv)
       ++ [ErrNoSuchPath model; ErrUsage (hd EmptyString argv)], Exited 1).
Proof.
  intros Hrange model Hbad.
  destruct (parseArguments_defined argv Hrange) as (o & a & Hp & Hm & Hv).
  fold model in Hm.
  assert (Hva : validateArguments fileExists a = ([ErrNoSuchPath model], Some false)).
  { unfold validateArguments, validatePath. rewrite Hm.
    unfold path_verdict in Hbad.
    destruct (isValidUrl model); [discriminate|].
    destruct (fileExists model) as [[|]|]; try discriminate. reflexivity. }
  rewrite (main_turns_down argv o a _ Hp Hva), Hp. reflexivity.
Qed.
End CliMore.

(** ** The colours file *)

Section LabelsFacts.
Import Labels.
Variable read_int : string -> option Z.

Lemma until_found (d : ascii) (s token after : string) :
  until d s = (token, Some after) ->
  s = (token ++ String d after)%string /\ occurs d token = false.
Proof.
  revert token. induction s as [|c s IH]; intros token Hu; cbn [until] in Hu.
  - discriminate.
  - destruct (Ascii.eqb c d) eqn:Hc.
    + apply Ascii.eqb_eq in Hc. subst c. inversion Hu; subst. auto.
    + destruct (until d s) as [token' after'] eqn:Hs.
      inversion Hu; subst. destruct (IH token' eq_refl) as [-> Hno].
      unfold String.app. cbn [String.append occurs]. rewrite Hc, Hno. auto.
Qed.

Lemma until_split (d : ascii) (token after : string) :
  occurs d token = false ->
  until d (token ++ String d after) = (token, Some after).
Proof.
  unfold String.app.
  induction token as [|c token IH]; cbn [until String.append occurs]; intros Hno.
  - rewrite Ascii.eqb_refl. reflexivity.
  - apply orb_false_iff in Hno. destruct Hno as [Hc Hno].
    rewrite Hc, (IH Hno). reflexivity.
Qed.

Lemma until_absent (d : ascii) (s : string) :
  occurs d s = false -> until d s = (s, None).
Proof.
  induction s as [|c s IH]; cbn [until occurs]; intros Hno; [reflexivity|].
  apply orb_false_iff in Hno. destruct Hno as [Hc Hno].
  rewrite Hc, (IH Hno). reflexivity.
Qed.

Lemma getline_found (d : ascii) (token after : string) :
  occurs d token = false ->
  getline d (mkStream (token ++ String d after) false)
  = Some (token, mkStream after false).
Proof.
  intros Hno. unfold getline. cbn [eofbit unread].
  rewrite (until_split d token after Hno).
  destruct token; reflexivity.
Qed.

(** X27.  Which lines give a colour, and which colour: exactly the lines with
    two commas or more whose first two fields and whose remainder (up to
    a line feed, if it has one) are read as [int]s; the first field ends
    up in the red place, the second in the green, the last in the blue
    place of the [cv::Scalar]. *)
Theorem color_line_fields (line : string) (c : Scalar) :
  parse_color_line read_int line = Some c
  <-> exists t1 t2 t3 : string,
        line = (t1 ++ "," ++ t2 ++ "," ++ t3)%string
        /\ occurs "," t1 = false /\ occurs "," t2 = false
        /\ t3 <> EmptyString
        /\ read_int t1 = Some (sr c)
        /\ read_int t2 = Some (sg c)
        /\ read_int (fst (until newline t3)) = Some (sb c).
Proof.
  split.
  - unfold parse_color_line, getline, istringstream. cbn [eofbit unread].
    destruct line as [|c0 line0]; [discriminate|].
    set (line := String c0 line0).
    destruct (until "," line) as [t1 [after1|]] eqn:Hu1; cbn.
    + destruct (read_int t1) as [r|] eqn:Hr; cbn; [|discriminate].
      destruct after1 as [|c1 after1']; [discriminate|].
      set (after1 := String c1 after1') in *.
      destruct (until "," after1) as [t2 [t3|]] eqn:Hu2; cbn.
      * destruct (read_int t2) as [g|] eqn:Hg; cbn; [|discriminate].
        destruct t3 as [|c3 t3']; [discriminate|].
        set (t3 := String c3 t3') in *.
        intros Hc.
        assert (Hb : read_int (fst (until newline t3)) = Some (sb c)
                     /\ g = sg c /\ r = sr c).
        { destruct (until newline t3) as [token3 [a|]]; cbn in Hc |- *;
            destruct (read_int token3); cbn in Hc; try discriminate;
            inversion Hc; subst; cbn; auto. }
        destruct Hb as (Hb & -> & ->).
        destruct (until_found _ _ _ _ Hu1) as [Hl1 Hn1].
        destruct (until_found _ _ _ _ Hu2) as [Hl2 Hn2].
        exists t1, t2, t3. rewrite Hl1, Hl2. repeat split; auto.
      * destruct (read_int t2); cbn; discriminate.
    + destruct (read_int t1); cbn; discriminate.
  - intros (t1 & t2 & t3 & -> & Hn1 & Hn2 & Hne & Hr & Hg & Hb).
    unfold parse_color_line, istringstream.
    change (t1 ++ "," ++ t2 ++ "," ++ t3)%string
      with (t1 ++ String "," (t2 ++ String "," t3))%string.
    rewrite (getline_found "," t1 _ Hn1). cbn [mbind option_bind].
    rewrite Hr. cbn [mbind option_bind].
    rewrite (getline_found "," t2 _ Hn2). cbn [mbind option_bind].
    rewrite Hg. cbn [mbind option_bind].
    unfold getline. cbn [eofbit unread].
    destruct t3 as [|c3 t3']; [contradiction|].
    set (t3 := String c3 t3') in *.
    destruct (until newline t3) as [token3 [a|]]; cbn in Hb |- *;
      rewrite Hb; cbn; destruct c; reflexivity.
Qed.

Lemma parse_color_line_no_comma (line : string) :
  occurs "," line = false -> parse_color_line read_int line = None.
Proof.
  intros Hno. unfold parse_color_line, getline, istringstream.
  cbn [eofbit unread].
  destruct line as [|c0 line0]; [reflexivity|].
  rewrite (until_absent _ _ Hno). cbn.
  destruct (read_int (String c0 line0)); reflexivity.
Qed.

(** X28.  A line without a comma (an empty line, a title, a comment) is left
    out without a message, so the colours of all later lines move up one
    place in [colors]: the file reads as if the line were not there. *)
Theorem line_without_comma_shifts_colors (filePath : string)
    (before after : list string) (line : string) (colors : list Scalar) :
  occurs "," line = false ->
  parseRgbColors read_int filePath (Some (before ++ line :: after)) colors
  = parseRgbColors read_int filePath (Some (before ++ after)) colors.
Proof.
  intros Hno.
  assert (Hadd : forall cs, add_color read_int cs line = cs).
  { intros cs. unfold add_color.
    rewrite (parse_color_line_no_comma line Hno). reflexivity. }
  unfold parseRgbColors. rewrite !fold_left_app. cbn [fold_left].
  rewrite Hadd. reflexivity.
Qed.
End LabelsFacts.

(** ** The properties above on the concrete states *)

Lemma shutdown_silences_handlers_witness :
  let x' := Unlocked.run_schedule Cases.schedule_after_shutdown
              (Unlocked.shutdown Cases.loop_before_lookup) in
  Dispatcher.world (Unlocked.loop_bus x') = Processor.new_pipeline
  /\ Dispatcher.running (Dispatcher.disp (Unlocked.loop_bus x')) = false
  /\ Dispatcher.handlerContainer (Dispatcher.disp (Unlocked.loop_bus x')) = ∅
  /\ Unlocked.it x' = Unlocked.NotYet
  /\ exists k, (k <= 6)%nat
               /\ Dispatcher.out (Unlocked.loop_bus x')
                  = replicate k (Dispatcher.Cerr Dispatcher.no_handler_msg).
Proof.
  apply (shutdown_silences_handlers Cases.loop_before_lookup
           Cases.schedule_after_shutdown).
  reflexivity.
Defined.





Lemma video_posts_frames_in_order_witness :
  let v := Video.run true Cases.fps_25 8 Cases.video_running in
  Dispatcher.eventQueue (Video.disp v)
    = [Sample.capture 1; Sample.capture 2]
  /\ Video.trace v = [Video.SleepMs 40; Video.SeekToStart; Video.SleepMs 40]
  /\ Video.pc v = Video.VWhile.
Proof.
  destruct (video_posts_frames_in_order true Cases.fps_25 40 Cases.video_reads
              (Processor.mkProcessor true [] false) Sample.empty_bus [])
    as (H1 & H2 & _ & H4 & _).
  - vm_compute. reflexivity.
  - reflexivity.
  - cbv zeta. split; [exact H1 | split; [exact H2 | exact H4]].
Defined.

Lemma video_stop_returns_witness :
  let v := Video.run true Cases.fps_25 3 Cases.video_stopped_before_read in
  Video.pc v = Video.VReturned
  /\ last (Video.trace v) = Some Video.ReleaseCapture
  /\ Video.reads v = [Some (Sample.frame 5)]
  /\ Dispatcher.eventQueue (Video.disp v) = [Sample.capture 4].
Proof.
  apply (video_stop_returns true Cases.fps_25 40 Cases.video_stopped_before_read).
  - vm_compute. reflexivity.
  - reflexivity.
  - right. left. split; [reflexivity | discriminate].
Defined.


Lemma gui_window_close_shuts_bus_witness :
  Gui.run [Cases.env_close; Cases.env_ok] Cases.gui_at_head
  = Gui.mkState (Gui.proc Cases.gui_at_head)
      (Dispatcher.shutdownEventloop Sample.empty_bus) Gui.GReturned false false [].
Proof.
  apply (gui_window_close_shuts_bus Cases.gui_at_head Cases.env_close Cases.env_ok);
    reflexivity.
Defined.

Lemma gui_asleep_ignores_window_witness :
  Gui.run [Cases.env_close; Cases.env_close] Cases.gui_asleep = Cases.gui_asleep.
Proof.
  apply (gui_asleep_ignores_window Cases.gui_asleep); reflexivity.
Defined.

Lemma gui_start_failure_leaves_bus_witness :
  let g := Gui.run [Cases.env_no_glfw; Cases.env_ok] Cases.gui_fresh in
  Gui.pc g = Gui.GReturned
  /\ Gui.disp g = Sample.empty_bus
  /\ Gui.proc g = Processor.mkProcessor true [] false
  /\ Gui.trace g = [Gui.CerrLine Gui.init_error_msg].
Proof.
  apply (gui_start_failure_leaves_bus Cases.gui_fresh Cases.env_no_glfw Cases.env_ok).
  - reflexivity.
  - left. reflexivity.
Defined.

Lemma gui_texture_generated_once_witness :
  let g := Gui.run (replicate 10 Cases.env_ok) Cases.gui_at_head in
  (Gui.generations Gui.Original (Gui.trace g) <= 1)%nat
  /\ (Gui.generations Gui.Processed (Gui.trace g) <= 1)%nat.
Proof.
  apply (gui_texture_generated_once Cases.gui_at_head (replicate 10 Cases.env_ok));
    reflexivity.
Defined.

Lemma objectClass_is_best_class_witness :
  (Detect.objectClass Sample.row_above_threshold < 2)%nat
  /\ forall j, (j < 2)%nat ->
       F32.ltb (Detect.confidence Sample.row_above_threshold)
               (Detect.at_ Sample.row_above_threshold (j + Detect.probability_index))
       = false.
Proof.
  apply (objectClass_is_best_class Sample.row_above_threshold).
  vm_compute. lia.
Defined.

Lemma atmLight_needs_a_pixel_witness :
  Defog.atmLight Defog.insertion_sort 0 480 [] [] Defog.zero3 = None.
Proof.
  apply (atmLight_needs_a_pixel Defog.insertion_sort 0 480 [] [] Defog.zero3). lia.
Defined.

Lemma atmLight_accumulates_onto_pOutA_witness :
  Defog.atmLight Defog.insertion_sort 2 2 Sample.image Sample.dark
    (Sample.px Sample.f_half Sample.f_half Sample.f_half)
  = Some (Defog.mkVec3f
            (F32.div (F32.add Sample.f_half Sample.f_3_4) (F32.of_Z 1))
            (F32.div (F32.add Sample.f_half Sample.f_9_10) (F32.of_Z 1))
            (F32.div (F32.add Sample.f_half Sample.f_3_4) (F32.of_Z 1))).
Proof.
  apply (atmLight_accumulates_onto_pOutA Defog.insertion_sort 2 2 Sample.image
           Sample.dark (Sample.px Sample.f_half Sample.f_half Sample.f_half)).
  - lia.
  - reflexivity.
  - reflexivity.
  - vm_compute. solve_Permutation.
Defined.

Lemma main_requires_both_paths_witness :
  let r := Cli.main (Mat:=Sample.Frame) Sample.fs Cli.stod_decimal
             Cases.argv_no_model in
  snd r = Cli.Exited 1
  /\ last (fst r) = Some (Cli.ErrUsage "CustomEventSystem")
  /\ Cli.stages_started (snd r) = [].
Proof.
  apply (main_requires_both_paths (Mat:=Sample.Frame) Sample.fs Cli.stod_decimal
           Cases.argv_no_model).
  - reflexivity.
  - intros v Hv. vm_compute in Hv. discriminate.
  - left. vm_compute. reflexivity.
Defined.

Lemma bad_model_path_hides_video_path_witness :
  Cli.main (Mat:=Sample.Frame) Sample.fs Cli.stod_decimal Cases.argv_bad_paths
  = (fst (Cli.parseArguments Cli.stod_decimal Cases.argv_bad_paths)
       ++ [Cli.ErrNoSuchPath "/opt/missing"; Cli.ErrUsage "CustomEventSystem"],
     Cli.Exited 1).
Proof.
  apply (bad_model_path_hides_video_path (Mat:=Sample.Frame) Sample.fs
           Cli.stod_decimal Cases.argv_bad_paths).
  - intros v Hv. vm_compute in Hv. discriminate.
  - vm_compute. reflexivity.
Defined.

Lemma line_without_comma_shifts_colors_witness :
  Labels.parseRgbColors Labels.read_decimal "colors.txt"
    (Some (["255,0,0"%string] ++ "# green"%string :: ["0,0,255"%string])) []
  = Labels.parseRgbColors Labels.read_decimal "colors.txt"
      (Some (["255,0,0"%string] ++ ["0,0,255"%string])) [].
Proof.
  apply (line_without_comma_shifts_colors Labels.read_decimal "colors.txt"
           ["255,0,0"%string] ["0,0,255"%string] "# green" []).
  reflexivity.
Defined.

Example colors_file_is_stored_bgr :
  Labels.parseRgbColors Labels.read_decimal "colors.txt"
    (Some ["255,0,0"; "# green"; "0,255,0"; "0,0,255,9"; "1,2"])%string []
  = ([], [mkScalar 0 0 255; mkScalar 0 255 0; mkScalar 255 0 0]).
Proof. vm_compute. reflexivity. Qed.
